(** * Eve: safe-call wrapper, tool registry and router

    A shallow embedding of [handler.py] and [eve.py].

    - Python text ([str]) is a Rocq [string]: the UTF-8 bytes of the text.
      Length, slicing and the class [\s] are exact on ASCII text.
    - JSON-like data is the inductive type [value]; a [dict] with string keys
      is an association list in insertion order.
    - A computation is a function from the observable state (what was
      written to standard output, and how many calls to the outside world
      were made) to an outcome and a new state.  An outcome is a returned
      value, a raised exception, or [Undetermined] (the model does not
      determine the behaviour, see [Weather.new]).
    - The outside world (HTTP servers, the language model, the process
      environment, the user at the keyboard) is a record of oracles,
      [World]; every definition that talks to it takes it as a parameter. *)

From Stdlib Require Import Ascii String ZArith.
From stdpp Require Import base gmap strings list fin_maps pretty.

Set Warnings "-register-all".
Open Scope string_scope.

(** ** Python data *)

Inductive value : Type :=
| VNone
| VBool (b : bool)
| VInt (n : Z)
| VFloat (literal : string)
| VStr (s : string)
| VList (l : list value)
| VDict (d : list (string * value)).

(** ** Exceptions *)

Inductive exc_class : Type :=
| KeyError | TypeError | AttributeError | IndexError | ValueError
| RuntimeError | EOFError | JSONDecodeError | UnicodeDecodeError
| ExceptionSubclass (name : string)
| KeyboardInterrupt | SystemExit | GeneratorExit
| BaseExceptionSubclass (name : string).

(** An exception object: its class and [str(e)]. *)
Record exc : Type := Exc { exc_type : exc_class; exc_str : string }.

(** [isinstance(e, Exception)]: the classes below [BaseException] that are
    not below [Exception] are the interpreter's exit and interrupt signals. *)
Definition isinstance_Exception (e : exc) : bool :=
  match exc_type e with
  | KeyboardInterrupt | SystemExit | GeneratorExit
  | BaseExceptionSubclass _ => false
  | _ => true
  end.

(** ** Computations *)

Record State : Type := mkState {
  stdout : list string;   (* chunks written so far, oldest first *)
  clock : nat             (* number of calls made to the outside world *)
}.

Inductive outcome (A : Type) : Type :=
| Ok (a : A)
| Raise (e : exc)
| Undetermined.
Arguments Ok {A} a.
Arguments Raise {A} e.
Arguments Undetermined {A}.

Definition M (A : Type) : Type := State -> outcome A * State.

Definition ret {A} (a : A) : M A := fun st => (Ok a, st).

Definition bind {A B} (c : M A) (k : A -> M B) : M B :=
  fun st =>
    match c st with
    | (Ok a, st') => k a st'
    | (Raise e, st') => (Raise e, st')
    | (Undetermined, st') => (Undetermined, st')
    end.

Definition raise {A} (e : exc) : M A := fun st => (Raise e, st).

Definition undetermined {A} : M A := fun st => (Undetermined, st).

Declare Scope py_scope.
Delimit Scope py_scope with py.
Notation "x <- c ;; k" := (bind c (fun x => k))
  (at level 100, c at next level, right associativity) : py_scope.
Notation "c ;;; k" := (bind c (fun _ => k))
  (at level 100, right associativity) : py_scope.
Open Scope py_scope.

(** [try: c  except Exception as e: h e] *)
Definition try_except {A} (c : M A) (h : exc -> M A) : M A :=
  fun st =>
    match c st with
    | (Raise e, st') =>
        if isinstance_Exception e then h e st' else (Raise e, st')
    | r => r
    end.

Definition lift {A} (o : outcome A) : M A := fun st => (o, st).

(** [sys.stdout.write(s)] *)
Definition write (s : string) : M unit :=
  fun st => (Ok tt, mkState (stdout st ++ [s]) (clock st)).

Definition newline : string := String "010"%char EmptyString.

(** [print(s)] and [print(s, end="")] *)
Definition print (s : string) : M unit := write (s ++ newline).
Definition print_no_end (s : string) : M unit := write s.

(** One call to the outside world: the oracle is asked at the current
    clock, and the clock advances. *)
Definition external {A} (oracle : nat -> outcome A) : M A :=
  fun st => (oracle (clock st), mkState (stdout st) (S (clock st))).

(** ** Operations of Python on data *)

Definition dquote : ascii := "034"%char.
Definition squote : ascii := "039"%char.
Definition backslash : ascii := "092"%char.

Definition str1 (c : ascii) : string := String c EmptyString.

(** [type(v).__name__] *)
Definition type_name (v : value) : string :=
  match v with
  | VNone => "NoneType"
  | VBool _ => "bool"
  | VInt _ => "int"
  | VFloat _ => "float"
  | VStr _ => "str"
  | VList _ => "list"
  | VDict _ => "dict"
  end.

Fixpoint contains_char (c : ascii) (s : string) : bool :=
  match s with
  | EmptyString => false
  | String c' s' => if Ascii.eqb c c' then true else contains_char c s'
  end.

Fixpoint escape (quote : ascii) (s : string) : string :=
  match s with
  | EmptyString => EmptyString
  | String c s' =>
      (if Ascii.eqb c quote then String backslash (str1 c)
       else if Ascii.eqb c backslash then String backslash (str1 c)
       else if Ascii.eqb c "010"%char then String backslash "n"
       else if Ascii.eqb c "013"%char then String backslash "r"
       else if Ascii.eqb c "009"%char then String backslash "t"
       else str1 c) ++ escape quote s'
  end.

(** [repr(s)] of a [str]: single quotes, unless the text has a single quote
    and no double quote.  (Other unprintable characters are left as they
    are.) *)
Definition repr_str (s : string) : string :=
  if contains_char squote s && negb (contains_char dquote s)
  then String dquote (escape dquote s ++ str1 dquote)
  else String squote (escape squote s ++ str1 squote).

Fixpoint join (sep : string) (l : list string) : string :=
  match l with
  | [] => EmptyString
  | [x] => x
  | x :: l' => x ++ sep ++ join sep l'
  end.

(** [repr(v)] *)
Fixpoint repr (v : value) : string :=
  match v with
  | VNone => "None"
  | VBool true => "True"
  | VBool false => "False"
  | VInt n => pretty n
  | VFloat literal => literal
  | VStr s => repr_str s
  | VList l => "[" ++ join ", " (map repr l) ++ "]"
  | VDict d =>
      "{" ++ join ", " (map (fun kv => repr_str (fst kv) ++ ": " ++ repr (snd kv)) d)
          ++ "}"
  end.

(** [str(v)], also what an f-string field [{v}] renders *)
Definition str_ (v : value) : string :=
  match v with
  | VStr s => s
  | _ => repr v
  end.

(** [d.get(key)] on the items of a dict *)
Fixpoint dict_lookup (key : string) (d : list (string * value)) : option value :=
  match d with
  | [] => None
  | (k, v) :: d' => if String.eqb key k then Some v else dict_lookup key d'
  end.

(** [d[key] = v] on the items of a dict: a new key goes last, a known key
    keeps its place *)
Fixpoint dict_set (key : string) (v : value) (d : list (string * value))
  : list (string * value) :=
  match d with
  | [] => [(key, v)]
  | (k, v') :: d' =>
      if String.eqb key k then (k, v) :: d' else (k, v') :: dict_set key v d'
  end.

Definition not_subscriptable {A} (v : value) : M A :=
  raise (Exc TypeError ("'" ++ type_name v ++ "' object is not subscriptable")).

Definition no_attribute {A} (v : value) (name : string) : M A :=
  raise (Exc AttributeError
           ("'" ++ type_name v ++ "' object has no attribute '" ++ name ++ "'")).

(** [v[key]] for a string literal [key] *)
Definition getitem (v : value) (key : string) : M value :=
  match v with
  | VDict d =>
      match dict_lookup key d with
      | Some x => ret x
      | None => raise (Exc KeyError (repr_str key))
      end
  | VList _ =>
      raise (Exc TypeError "list indices must be integers or slices, not str")
  | VStr _ => raise (Exc TypeError "string indices must be integers, not 'str'")
  | _ => not_subscriptable v
  end.

(** [v[0]] *)
Definition getitem_0 (v : value) : M value :=
  match v with
  | VList (x :: _) => ret x
  | VList [] => raise (Exc IndexError "list index out of range")
  | VStr (String c _) => ret (VStr (str1 c))
  | VStr EmptyString => raise (Exc IndexError "string index out of range")
  | VDict _ => raise (Exc KeyError "0")
  | _ => not_subscriptable v
  end.

(** [v.get(key, default)] *)
Definition method_get (v : value) (key : string) (default : value) : M value :=
  match v with
  | VDict d => ret (from_option id default (dict_lookup key d))
  | _ => no_attribute v "get"
  end.

Definition lower_char (c : ascii) : ascii :=
  let n := nat_of_ascii c in
  if (65 <=? n)%nat && (n <=? 90)%nat then ascii_of_nat (n + 32) else c.

Fixpoint lower (s : string) : string :=
  match s with
  | EmptyString => EmptyString
  | String c s' => String (lower_char c) (lower s')
  end.

(** [v.lower()] *)
Definition method_lower (v : value) : M value :=
  match v with
  | VStr s => ret (VStr (lower s))
  | _ => no_attribute v "lower"
  end.

Fixpoint str_take (n : nat) (s : string) : string :=
  match n, s with
  | S n', String c s' => String c (str_take n' s')
  | _, _ => EmptyString
  end.

(** [v[:n]] *)
Definition slice_to (n : nat) (v : value) : M value :=
  match v with
  | VList l => ret (VList (take n l))
  | VStr s => ret (VStr (str_take n s))
  | VDict _ =>
      raise (Exc KeyError ("slice(None, " ++ pretty n ++ ", None)"))
  | _ => not_subscriptable v
  end.

Fixpoint chars (s : string) : list value :=
  match s with
  | EmptyString => []
  | String c s' => VStr (str1 c) :: chars s'
  end.

(** The elements [iter(v)] yields *)
Definition iterate (v : value) : M (list value) :=
  match v with
  | VList l => ret l
  | VStr s => ret (chars s)
  | VDict d => ret (map (fun kv => VStr (fst kv)) d)
  | _ => raise (Exc TypeError ("'" ++ type_name v ++ "' object is not iterable"))
  end.

(** [len(v)] *)
Definition len (v : value) : M nat :=
  match v with
  | VList l => ret (length l)
  | VStr s => ret (String.length s)
  | VDict d => ret (length d)
  | _ => raise (Exc TypeError
                  ("object of type '" ++ type_name v ++ "' has no len()"))
  end.

(** The strings of a list of values, or the first element that is not one,
    with its position *)
Fixpoint all_str (i : nat) (l : list value) : list string + nat * value :=
  match l with
  | [] => inl []
  | VStr s :: l' =>
      match all_str (S i) l' with
      | inl ss => inl (s :: ss)
      | inr bad => inr bad
      end
  | v :: _ => inr (i, v)
  end.

(** [sep.join(l)] *)
Definition str_join (sep : string) (l : list value) : M value :=
  match all_str 0 l with
  | inl ss => ret (VStr (join sep ss))
  | inr (i, v) =>
      raise (Exc TypeError ("sequence item " ++ pretty i
                            ++ ": expected str instance, " ++ type_name v
                            ++ " found"))
  end.

(** [template.format(args...)] for a template whose only fields are [{}] *)
Fixpoint str_format (template : string) (args : list value) : M string :=
  match template with
  | String "{" (String "}" rest) =>
      match args with
      | a :: args' => s <- str_format rest args' ;; ret (str_ a ++ s)
      | [] => raise (Exc IndexError
                "Replacement index out of range for positional args tuple")
      end
  | String c rest => s <- str_format rest args ;; ret (String c s)
  | EmptyString => ret EmptyString
  end.

(** [for x in l: r.append(f(x))] *)
Fixpoint mapM {A B} (f : A -> M B) (l : list A) : M (list B) :=
  match l with
  | [] => ret []
  | x :: l' => y <- f x ;; ys <- mapM f l' ;; ret (y :: ys)
  end.

(** ** The library [re], for patterns that are a sequence of characters and
    starred characters *)

Module re.

Inductive atom : Type :=
| Lit (c : ascii)     (* the character itself *)
| Dot                 (* [.]: any character but a newline *)
| Space.              (* [\s] *)

Inductive item : Type :=
| One (a : atom)          (* [a] *)
| StarLazy (a : atom)     (* [a*?] *)
| StarGreedy (a : atom).  (* [a*] *)

Definition is_space (c : ascii) : bool :=
  let n := nat_of_ascii c in
  ((9 <=? n) && (n <=? 13) || (28 <=? n) && (n <=? 32))%nat.

Definition atom_matches (a : atom) (c : ascii) : bool :=
  match a with
  | Lit c' => Ascii.eqb c c'
  | Dot => negb (Ascii.eqb c "010"%char)
  | Space => is_space c
  end.

(** The match of the pattern at the start of the text that a backtracking
    matcher finds first: a lazy star tries the rest of the pattern before
    one more repetition, a greedy star after. *)
Fixpoint match_here (p : list item) : string -> option string :=
  match p with
  | [] => fun _ => Some EmptyString
  | One a :: p' =>
      fun s =>
        match s with
        | String c s' =>
            if atom_matches a c then String c <$> match_here p' s' else None
        | EmptyString => None
        end
  | StarLazy a :: p' =>
      fix lazy (s : string) : option string :=
        match match_here p' s with
        | Some m => Some m
        | None =>
            match s with
            | String c s' =>
                if atom_matches a c then String c <$> lazy s' else None
            | EmptyString => None
            end
        end
  | StarGreedy a :: p' =>
      fix greedy (s : string) : option string :=
        match s with
        | String c s' =>
            if atom_matches a c then
              match greedy s' with
              | Some m => Some (String c m)
              | None => match_here p' s
              end
            else match_here p' s
        | EmptyString => match_here p' s
        end
  end.

(** [re.search(p, s)]: the match at the leftmost position that has one;
    [Some m] stands for a match object with [m = match.group()]. *)
Fixpoint search (p : list item) (s : string) : option string :=
  match match_here p s with
  | Some m => Some m
  | None =>
      match s with
      | String _ s' => search p s'
      | EmptyString => None
      end
  end.

Definition lits (s : string) : list item :=
  (fun c => One (Lit c)) <$> list_ascii_of_string s.

End re.

(** ** The library [json]: the decoder *)

Module json.

Inductive parse (A : Type) : Type :=
| Parsed (a : A) (rest : string)
| Invalid
| OutOfFuel.
Arguments Parsed {A} a rest.
Arguments Invalid {A}.
Arguments OutOfFuel {A}.

Definition is_ws (c : ascii) : bool :=
  Ascii.eqb c " " || Ascii.eqb c "009" || Ascii.eqb c "010" || Ascii.eqb c "013".

Fixpoint skip_ws (s : string) : string :=
  match s with
  | String c s' => if is_ws c then skip_ws s' else s
  | EmptyString => s
  end.

Definition hex_digit (c : ascii) : option N :=
  let n := N_of_ascii c in
  if ((48 <=? n) && (n <=? 57))%N then Some (n - 48)%N
  else if ((65 <=? n) && (n <=? 70))%N then Some (n - 55)%N
  else if ((97 <=? n) && (n <=? 102))%N then Some (n - 87)%N
  else None.

Definition hex4 (a b c d : ascii) : option N :=
  x ← hex_digit a; y ← hex_digit b; z ← hex_digit c; t ← hex_digit d;
  Some (((x * 16 + y) * 16 + z) * 16 + t)%N.

(** The UTF-8 bytes of a code point below 65536 *)
Definition utf8 (n : N) : string :=
  if (n <? 128)%N then str1 (ascii_of_N n)
  else if (n <? 2048)%N then
    String (ascii_of_N (192 + n / 64)) (str1 (ascii_of_N (128 + n mod 64)))
  else
    String (ascii_of_N (224 + n / 4096))
      (String (ascii_of_N (128 + (n / 64) mod 64))
         (str1 (ascii_of_N (128 + n mod 64)))).

(** The text of a string literal, after its opening quote, and what
    follows its closing quote.  (An escaped surrogate pair is decoded
    half by half.) *)
Fixpoint scanstring (s : string) : option (string * string) :=
  match s with
  | EmptyString => None
  | String "034" rest => Some (EmptyString, rest)
  | String "092" (String e rest) =>
      let continue (decoded : string) (rest' : option (string * string)) :=
        '(t, r) ← rest'; Some (decoded ++ t, r) in
      if Ascii.eqb e "034" then continue (str1 e) (scanstring rest)
      else if Ascii.eqb e "092" then continue (str1 e) (scanstring rest)
      else if Ascii.eqb e "/" then continue (str1 e) (scanstring rest)
      else if Ascii.eqb e "b" then continue (str1 "008") (scanstring rest)
      else if Ascii.eqb e "f" then continue (str1 "012") (scanstring rest)
      else if Ascii.eqb e "n" then continue (str1 "010") (scanstring rest)
      else if Ascii.eqb e "r" then continue (str1 "013") (scanstring rest)
      else if Ascii.eqb e "t" then continue (str1 "009") (scanstring rest)
      else if Ascii.eqb e "u" then
        match rest with
        | String a (String b (String c (String d rest'))) =>
            n ← hex4 a b c d; continue (utf8 n) (scanstring rest')
        | _ => None
        end
      else None
  | String "092" EmptyString => None
  | String c rest =>
      if (N_of_ascii c <? 32)%N then None
      else '(t, r) ← scanstring rest; Some (String c t, r)
  end.

Definition is_digit (c : ascii) : bool :=
  let n := N_of_ascii c in ((48 <=? n) && (n <=? 57))%N.

Fixpoint digits (s : string) : string * string :=
  match s with
  | String c s' =>
      if is_digit c then let '(d, r) := digits s' in (String c d, r)
      else (EmptyString, s)
  | EmptyString => (EmptyString, s)
  end.

Fixpoint decimal (acc : Z) (d : string) : Z :=
  match d with
  | String c d' => decimal (10 * acc + (Z.of_N (N_of_ascii c) - 48)) d'
  | EmptyString => acc
  end.

(** The fraction [.ddd] at the start of the text, if any *)
Definition fraction (s : string) : string * string :=
  match s with
  | String "." s' =>
      match digits s' with
      | (EmptyString, _) => (EmptyString, s)
      | (d, r) => (String "." d, r)
      end
  | _ => (EmptyString, s)
  end.

(** The exponent [e+ddd] at the start of the text, if any *)
Definition exponent (s : string) : string * string :=
  match s with
  | String e s' =>
      if Ascii.eqb e "e" || Ascii.eqb e "E" then
        let '(sign, s'') :=
          match s' with
          | String "+" t => ("+", t)
          | String "-" t => ("-", t)
          | _ => (EmptyString, s')
          end in
        match digits s'' with
        | (EmptyString, _) => (EmptyString, s)
        | (d, r) => (String e (sign ++ d), r)
        end
      else (EmptyString, s)
  | EmptyString => (EmptyString, s)
  end.

(** A number at the start of the text: an optional sign, [0] or digits
    that do not start with [0], an optional fraction, an optional
    exponent.  Without fraction and exponent it is an [int]. *)
Definition number (s : string) : option (value * string) :=
  let '(sign, s1) :=
    match s with
    | String "-" t => ("-", t)
    | _ => (EmptyString, s)
    end in
  let integer :=
    match s1 with
    | String "0" t => Some ("0", t)
    | String c t =>
        if is_digit c then let '(d, r) := digits t in Some (String c d, r)
        else None
    | EmptyString => None
    end in
  '(int, s2) ← integer;
  let '(frac, s3) := fraction s2 in
  let '(exp, s4) := exponent s3 in
  match frac, exp with
  | EmptyString, EmptyString =>
      Some (VInt (if String.eqb sign "-" then - decimal 0 int
                  else decimal 0 int), s4)
  | _, _ => Some (VFloat (sign ++ int ++ frac ++ exp), s4)
  end.

Fixpoint strip_prefix (p s : string) : option string :=
  match p, s with
  | EmptyString, _ => Some s
  | String a p', String b s' =>
      if Ascii.eqb a b then strip_prefix p' s' else None
  | _, _ => None
  end.

(** The constants [null], [true], [false], [NaN], [Infinity], [-Infinity] *)
Definition constant (s : string) : option (value * string) :=
  match strip_prefix "null" s with Some r => Some (VNone, r) | None =>
  match strip_prefix "true" s with Some r => Some (VBool true, r) | None =>
  match strip_prefix "false" s with Some r => Some (VBool false, r) | None =>
  match strip_prefix "NaN" s with Some r => Some (VFloat "nan", r) | None =>
  match strip_prefix "Infinity" s with Some r => Some (VFloat "inf", r) | None =>
  match strip_prefix "-Infinity" s with Some r => Some (VFloat "-inf", r) | None =>
  None end end end end end end.

Definition of_option {A} (o : option (A * string)) : parse A :=
  match o with
  | Some (a, r) => Parsed a r
  | None => Invalid
  end.

(** [scan_once]: the value at the start of the text.  [members] reads an
    object from a key on, [elements] an array from an element on.  The
    fuel bounds the depth of the calls; where it runs out (on arrays nested
    deeper than half the length of the text, which are never closed there)
    the result is [OutOfFuel] and the model does not say what the decoder
    does. *)
Fixpoint scan_once (fuel : nat) (s : string) {struct fuel} : parse value :=
  match fuel with
  | O => OutOfFuel
  | S fuel' =>
      match s with
      | String "034" rest =>
          of_option ('(t, r) ← scanstring rest; Some (VStr t, r))
      | String "{" rest =>
          match skip_ws rest with
          | String "}" r => Parsed (VDict []) r
          | String "034" r => members fuel' [] (String "034" r)
          | _ => Invalid
          end
      | String "[" rest =>
          match skip_ws rest with
          | String "]" r => Parsed (VList []) r
          | r => elements fuel' [] r
          end
      | _ =>
          match constant s with
          | Some (v, r) => Parsed v r
          | None => of_option (number s)
          end
      end
  end
with members (fuel : nat) (acc : list (string * value)) (s : string)
       {struct fuel} : parse value :=
  match fuel with
  | O => OutOfFuel
  | S fuel' =>
      match s with
      | String "034" rest =>
          match scanstring rest with
          | Some (key, r1) =>
              match skip_ws r1 with
              | String ":" r2 =>
                  match scan_once fuel' (skip_ws r2) with
                  | Parsed v r3 =>
                      let acc' := dict_set key v acc in
                      match skip_ws r3 with
                      | String "}" r4 => Parsed (VDict acc') r4
                      | String "," r4 => members fuel' acc' (skip_ws r4)
                      | _ => Invalid
                      end
                  | Invalid => Invalid
                  | OutOfFuel => OutOfFuel
                  end
              | _ => Invalid
              end
          | None => Invalid
          end
      | _ => Invalid
      end
  end
with elements (fuel : nat) (acc : list value) (s : string)
       {struct fuel} : parse value :=
  match fuel with
  | O => OutOfFuel
  | S fuel' =>
      match scan_once fuel' s with
      | Parsed v r1 =>
          match skip_ws r1 with
          | String "]" r2 => Parsed (VList (acc ++ [v])) r2
          | String "," r2 => elements fuel' (acc ++ [v]) (skip_ws r2)
          | _ => Invalid
          end
      | Invalid => Invalid
      | OutOfFuel => OutOfFuel
      end
  end.

(** [json.loads(s)], up to the message of the error *)
Definition decode (s : string) : parse value :=
  match scan_once (S (String.length s)) (skip_ws s) with
  | Parsed v rest =>
      match skip_ws rest with
      | EmptyString => Parsed v EmptyString
      | _ => Invalid
      end
  | r => r
  end.

End json.

(** ** Callables and objects *)

Record callable : Type := Callable {
  __name__ : string;
  call : list value -> M value
}.

(** What an attribute of an instance can hold in this program: data, a
    callable, or a [dict] of such (the registry of tools). *)
Inductive attr : Type :=
| AValue (v : value)
| ACallable (f : callable)
| ADict (d : gmap string attr).

(** The attributes [getattr] finds on an instance: its own and, behind them,
    those of its class. *)
Abbreviation object := (gmap string attr).

(** A reference to an instance; [None] where the model does not say which
    (see [Weather.new]). *)
Abbreviation instance := (option (gmap string attr)).

(** [callable(attr)] *)
Definition is_callable (a : attr) : bool :=
  match a with ACallable _ => true | _ => false end.

(** ** The outside world *)

Record Response : Type := mkResponse {
  status_code : Z;
  json : outcome value;              (* response.json() *)
  content_decode : outcome string    (* response.content.decode('utf-8') *)
}.

Record World : Type := mkWorld {
  (* os.getenv(name): a string, or None when the variable is unset *)
  getenv : string -> value;
  (* requests.get(url), asked at a clock *)
  requests_get : nat -> value -> outcome Response;
  (* ollama.chat(model, messages, stream=True), asked at a clock: the
     tokens streamed, and the exception that ends the stream early, if any *)
  ollama_chat : nat -> value -> list value -> list string * option exc;
  (* the lines the user types at the prompt; [input] raises EOFError after *)
  stdin : list string;
  (* (date.today() - timedelta(days=1)).isoformat(), asked at a clock *)
  yesterday : nat -> string;
  (* BeautifulSoup(html,'html.parser').find('div', id='mw-content-text'):
     None when there is no such element, else the texts of its <p> elements *)
  soup_content_paragraphs : value -> outcome (option (list string));
  (* traceback.format_exc() while [e] is being handled *)
  format_exc : exc -> string;
  (* the message of the JSONDecodeError that json.loads raises on a text *)
  json_error_message : string -> string
}.

(** ** Attribute access and calls *)

(** [getattr(self, name)] *)
Definition getattr (self : instance) (name : string) : M attr :=
  match self with
  | None => undetermined
  | Some o =>
      match o !! name with
      | Some a => ret a
      | None =>
          raise (Exc AttributeError ("object has no attribute '" ++ name ++ "'"))
      end
  end.

(** [a(args...)] *)
Definition call_attr (a : attr) (args : list value) : M value :=
  match a with
  | ACallable f => call f args
  | AValue v =>
      raise (Exc TypeError ("'" ++ type_name v ++ "' object is not callable"))
  | ADict _ => raise (Exc TypeError "'dict' object is not callable")
  end.

(** [self.name(args...)] *)
Definition invoke (self : instance) (name : string) (args : list value)
  : M value :=
  a <- getattr self name ;; call_attr a args.

(** [self.name], read as data *)
Definition attr_value (self : instance) (name : string) : M value :=
  a <- getattr self name ;;
  match a with
  | AValue v => ret v
  | _ => undetermined
  end.

Definition arity_error {A} (name : string) : M A :=
  raise (Exc TypeError (name ++ "() got a wrong number of positional arguments")).

(** A method bound to its instance, by the number of its parameters after
    [self]; [default] is the default of the last one, if it has one. *)
Definition method0 (name : string) (body : M value) : callable :=
  {| __name__ := name;
     call := fun args =>
       match args with
       | [] => body
       | _ => arity_error name
       end |}.

Definition method1 (name : string) (default : option value)
    (body : value -> M value) : callable :=
  {| __name__ := name;
     call := fun args =>
       match args, default with
       | [x], _ => body x
       | [], Some d => body d
       | _, _ => arity_error name
       end |}.

Definition method2 (name : string) (default : option value)
    (body : value -> value -> M value) : callable :=
  {| __name__ := name;
     call := fun args =>
       match args, default with
       | [x; y], _ => body x y
       | [x], Some d => body x d
       | _, _ => arity_error name
       end |}.

Definition method3 (name : string) (default : option value)
    (body : value -> value -> value -> M value) : callable :=
  {| __name__ := name;
     call := fun args =>
       match args, default with
       | [x; y; z], _ => body x y z
       | [x; y], Some d => body x y d
       | _, _ => arity_error name
       end |}.

(** The instance a constructor builds; it does not depend on the state the
    constructor runs in. *)
Definition constructed (init : M object) : instance :=
  match init (mkState [] 0) with
  | (Ok o, _) => Some o
  | _ => None
  end.

(** * handler.py *)

Section Handler.

Variable w : World.

(** The dict [error_data] that [wrapper] builds while it handles [e] *)
Definition error_data (func : callable) (e : exc) : value :=
  VDict [("success", VBool false);
         ("error", VStr (exc_str e));
         ("function", VStr (__name__ func));
         ("trace", VStr (format_exc w e))].

(** [safe_run(func)]: the closure [wrapper] *)
Definition safe_run (func : callable) : callable :=
  {| __name__ := "wrapper";
     call := fun args =>
       try_except (call func args)
         (fun e =>
            print ("Error in " ++ __name__ func ++ ": " ++ exc_str e) ;;;
            ret (error_data func e)) |}.

(** [output_json(success, result)] *)
Definition output_json (success : bool) (result : value) : value :=
  VDict [("success", VBool success); ("data", result)].

(** [dir(self)]: the names of the attributes.  (Python lists them
    sorted; the loop below does not depend on the order.) *)
Definition dir (self : object) : list string :=
  (map_to_list self).*1.

(** One turn of the loop of [_wrap_modules]. *)
Definition wrap_step (self : object) (attr_name : string) : object :=
  if String.prefix "__" attr_name then self
  else match self !! attr_name with
       | Some (ACallable f) => <[attr_name := ACallable (safe_run f)]> self
       | _ => self
       end.

(** [ErrorHandler._wrap_modules(self)] *)
Definition _wrap_modules (self : object) : object :=
  foldl wrap_step self (dir self).

(** [ErrorHandler.__init__(self)] *)
Definition ErrorHandler___init__ (self : object) : object :=
  _wrap_modules self.

End Handler.

(** * eve.py *)

(** [v.format(args...)] *)
Definition method_format (v : value) (args : list value) : M value :=
  match v with
  | VStr template => s <- str_format template args ;; ret (VStr s)
  | _ => no_attribute v "format"
  end.

(** The test [isinstance(data, dict) and data.get('success') is False] of
    the three [main] methods *)
Definition is_failure (data : value) : bool :=
  match data with
  | VDict d =>
      match dict_lookup "success" d with
      | Some (VBool false) => true
      | _ => false
      end
  | _ => false
  end.

(** The tail shared by the three [main] methods *)
Definition envelope (data : value) : M value :=
  if is_failure data then
    error <- method_get data "error" VNone ;;
    ret (output_json false error)
  else ret (output_json true data).

(** A bound [_wrap_modules]: calling it again on a constructed instance
    would change the instance, which the program never does and the model
    does not follow. *)
Definition bound__wrap_modules : callable :=
  method0 "_wrap_modules" undetermined.

(** ** class Weather(ErrorHandler) *)

Module Weather.
Section Weather.

Variable w : World.
Variable self : instance.

Definition _fetch_weather (location : value) : M value :=
  _url <- attr_value self "_url" ;;
  _api_key <- attr_value self "_api_key" ;;
  url <- method_format _url [_api_key; location] ;;
  data <- external (fun t => requests_get w t url) ;;
  if (status_code data =? 200)%Z then lift (json data)
  else
    body <- lift (json data) ;;
    error <- getitem body "error" ;;
    raise (Exc RuntimeError
             ("Weather Module doesn't work with status code "
              ++ pretty (status_code data) ++ " and content " ++ str_ error)).

Definition _format_data (data : value) : M value :=
  location <- (x <- getitem data "location" ;; getitem x "name") ;;
  condition <- (x <- getitem data "current" ;; x <- getitem x "condition" ;;
                getitem x "text") ;;
  temp <- (x <- getitem data "current" ;; getitem x "temp_c") ;;
  feels_like <- (x <- getitem data "current" ;; getitem x "feelslike_c") ;;
  humidity <- (x <- getitem data "current" ;; getitem x "humidity") ;;
  forecast_today <- (x <- getitem data "forecast" ;;
                     x <- getitem x "forecastday" ;;
                     x <- getitem_0 x ;; getitem x "day") ;;
  max_temp <- getitem forecast_today "maxtemp_c" ;;
  min_temp <- getitem forecast_today "mintemp_c" ;;
  chance_of_rain <- method_get forecast_today "daily_chance_of_rain" (VInt 0) ;;
  forecast_condition <- (x <- getitem forecast_today "condition" ;;
                         getitem x "text") ;;
  condition_lower <- method_lower condition ;;
  forecast_condition_lower <- method_lower forecast_condition ;;
  ret (VStr
         ("Currently, it's " ++ str_ condition_lower ++ " in " ++ str_ location
          ++ " with " ++ str_ temp ++ "°C (feels like " ++ str_ feels_like
          ++ "°C) " ++ "and humidity at " ++ str_ humidity ++ "%. "
          ++ "Today's forecast: " ++ str_ forecast_condition_lower
          ++ ", highs of " ++ str_ max_temp ++ "°C and lows of "
          ++ str_ min_temp ++ "°C. "
          ++ "Chance of rain is " ++ str_ chance_of_rain ++ "%.")).

Definition main (location : value) : M value :=
  format_data <- getattr self "_format_data" ;;
  fetched <- invoke self "_fetch_weather" [location] ;;
  data <- call_attr format_data [fetched] ;;
  envelope data.

(** The attributes the class gives an instance, methods bound to it *)
Definition class : object :=
  <["__module__" := AValue (VStr "__main__")]>
  (<["_wrap_modules" := ACallable bound__wrap_modules]>
  (<["_fetch_weather" := ACallable (method1 "_fetch_weather" None _fetch_weather)]>
  (<["_format_data" := ACallable (method1 "_format_data" None _format_data)]>
  (<["main" := ACallable (method1 "main" (Some (VStr "india")) main)]> ∅)))).

Definition __init__ (self : object) : M object :=
  let self := ErrorHandler___init__ w self in
  let self :=
    <["_description" := AValue (VStr
        "Fetches current weather and forecast for a given location using WeatherAPI.")]>
      self in
  let self := <["_api_key" := AValue (getenv w "WEATHER_API_KEY")]> self in
  let self :=
    <["_url" := AValue (VStr
        "http://api.weatherapi.com/v1/forecast.json?key={}&q={}&aqi=no")]>
      self in
  ret self.

End Weather.

(** [Weather()], with the calls of methods on [self] followed [depth]
    levels deep: inside a method of [new w (S d)], [self] is [new w d];
    below the last level [self] is unknown and what touches it is
    [Undetermined]. *)
Fixpoint new (w : World) (depth : nat) : instance :=
  match depth with
  | O => None
  | S d => constructed (__init__ w (class w (new w d)))
  end.

End Weather.

(** ** class News(ErrorHandler) *)

Module News.
Section News.

Variable w : World.
Variable self : instance.

Definition _news_format (news : value) : M value :=
  name <- (x <- getitem news "source" ;; getitem x "name") ;;
  description <- getitem news "description" ;;
  url <- getitem news "url" ;;
  ret (VStr ("*" ++ str_ name ++ "*" ++ newline ++ " " ++ str_ description
             ++ newline ++ "Link:- " ++ str_ url ++ newline)).

Definition _filter_data (data : value) : M value :=
  data <- getitem data "articles" ;;
  news_format <- getattr self "_news_format" ;;
  first10 <- slice_to 10 data ;;
  items <- iterate first10 ;;
  formatted <- mapM (fun x => call_attr news_format [x]) items ;;
  str_join newline formatted.

Definition _fetch_news (topic : value) : M value :=
  _api_url <- attr_value self "_api_url" ;;
  day <- (fun st => (Ok (yesterday w (clock st)), st)) ;;
  _api_key <- attr_value self "_api_key" ;;
  url <- method_format _api_url [topic; VStr day; _api_key] ;;
  response <- external (fun t => requests_get w t url) ;;
  if (status_code response =? 200)%Z then
    filter_data <- getattr self "_filter_data" ;;
    body <- lift (json response) ;;
    call_attr filter_data [body]
  else
    error_message <-
      try_except
        (body <- lift (json response) ;;
         method_get body "message" (VStr "No message provided"))
        (fun _ => text <- lift (content_decode response) ;; ret (VStr text)) ;;
    raise (Exc RuntimeError
             ("News API Error:" ++ newline
              ++ "Topic: '" ++ str_ topic ++ "'" ++ newline
              ++ "Status Code: " ++ pretty (status_code response) ++ newline
              ++ "Message: " ++ str_ error_message)).

Definition main (topic : value) : M value :=
  data <- invoke self "_fetch_news" [topic] ;;
  envelope data.

Definition class : object :=
  <["__module__" := AValue (VStr "__main__")]>
  (<["_wrap_modules" := ACallable bound__wrap_modules]>
  (<["_news_format" := ACallable (method1 "_news_format" None _news_format)]>
  (<["_filter_data" := ACallable (method1 "_filter_data" None _filter_data)]>
  (<["_fetch_news" := ACallable (method1 "_fetch_news" None _fetch_news)]>
  (<["main" := ACallable (method1 "main" (Some (VStr "india")) main)]> ∅))))).

Definition __init__ (self : object) : M object :=
  let self := ErrorHandler___init__ w self in
  let self :=
    <["_description" := AValue (VStr
        "Fetches the latest news articles based on a specific topic using NewsAPI.")]>
      self in
  let self :=
    <["_api_url" := AValue (VStr
        "https://newsapi.org/v2/everything?q={}&from={}&sortBy=publishedAt&apiKey={}")]>
      self in
  let self := <["_api_key" := AValue (getenv w "NEWS_API_KEY")]> self in
  ret self.

End News.

(** [News()], to a depth (see [Weather.new]) *)
Fixpoint new (w : World) (depth : nat) : instance :=
  match depth with
  | O => None
  | S d => constructed (__init__ w (class w (new w d)))
  end.

End News.

(** ** class GoogleSearch(ErrorHandler) *)

Module GoogleSearch.
Section GoogleSearch.

Variable w : World.
Variable self : instance.

Definition _scrape_webpage (data : value) : M value :=
  results <- lift (soup_content_paragraphs w data) ;;
  match results with
  | None => no_attribute VNone "find_all"
  | Some paragraphs =>
      ret (VStr (join newline
                   (filter (fun item => 50 < String.length item) paragraphs)))
  end.

Definition _get_webpage (link : value) : M value :=
  response <- external (fun t => requests_get w t link) ;;
  scrape_webpage <- getattr self "_scrape_webpage" ;;
  text <- lift (content_decode response) ;;
  call_attr scrape_webpage [VStr text].

Definition _do_google_search (topic : value) : M value :=
  _api_key <- attr_value self "_api_key" ;;
  _cx <- attr_value self "_cx" ;;
  let url :=
    "https://www.googleapis.com/customsearch/v1?key=" ++ str_ _api_key
    ++ "&cx=" ++ str_ _cx ++ "&q=" ++ str_ topic ++ " wikipedia" in
  response <- external (fun t => requests_get w t (VStr url)) ;;
  if (status_code response =? 200)%Z then
    get_webpage <- getattr self "_get_webpage" ;;
    link <- (x <- lift (json response) ;; x <- getitem x "items" ;;
             x <- getitem_0 x ;; getitem x "formattedUrl") ;;
    call_attr get_webpage [link]
  else
    text <- lift (content_decode response) ;;
    raise (Exc RuntimeError
             ("Error in Google search with status code : "
              ++ pretty (status_code response) ++ " Message : " ++ text)).

Definition main (topic : value) : M value :=
  data <- invoke self "_do_google_search" [topic] ;;
  envelope data.

Definition class : object :=
  <["__module__" := AValue (VStr "__main__")]>
  (<["_wrap_modules" := ACallable bound__wrap_modules]>
  (<["_scrape_webpage" := ACallable (method1 "_scrape_webpage" None _scrape_webpage)]>
  (<["_get_webpage" := ACallable (method1 "_get_webpage" None _get_webpage)]>
  (<["_do_google_search" :=
       ACallable (method1 "_do_google_search" None _do_google_search)]>
  (<["main" := ACallable (method1 "main" (Some (VStr EmptyString)) main)]> ∅))))).

Definition __init__ (self : object) : M object :=
  let self := ErrorHandler___init__ w self in
  let self :=
    <["_description" := AValue (VStr
        "Performs a Google search and scrapes Wikipedia content for the search topic. use when the user explcitly asks for google search")]>
      self in
  let self := <["_api_key" := AValue (getenv w "SEARCH_API_KEY")]> self in
  let self := <["_cx" := AValue (getenv w "SEARCH_CSX_ID")]> self in
  ret self.

End GoogleSearch.

(** [GoogleSearch()], to a depth (see [Weather.new]) *)
Fixpoint new (w : World) (depth : nat) : instance :=
  match depth with
  | O => None
  | S d => constructed (__init__ w (class w (new w d)))
  end.

End GoogleSearch.

(** ** class Eve(ErrorHandler) *)

(** The pattern of [_extract_json]: an opening brace, lazily anything, the
    key ["tool"] in double quotes, a colon between optional spaces, a string
    in double quotes read lazily, lazily anything, a closing brace. *)
Definition pattern : list re.item :=
  re.lits "{" ++ [re.StarLazy re.Dot]
  ++ [re.One (re.Lit dquote)] ++ re.lits "tool" ++ [re.One (re.Lit dquote)]
  ++ [re.StarGreedy re.Space] ++ re.lits ":" ++ [re.StarGreedy re.Space]
  ++ [re.One (re.Lit dquote)] ++ [re.StarLazy re.Dot] ++ [re.One (re.Lit dquote)]
  ++ [re.StarLazy re.Dot] ++ re.lits "}".

(** [key in tools], as the entry found: unhashable keys raise, and the keys
    of the registry are strings *)
Definition registry_find (tools : attr) (key : value) : M (option attr) :=
  match tools with
  | ADict d =>
      match key with
      | VStr name => ret (d !! name)
      | VList _ | VDict _ =>
          raise (Exc TypeError ("unhashable type: '" ++ type_name key ++ "'"))
      | _ => ret None
      end
  | _ => undetermined
  end.

(** The envelope of [_call_module] for a name that is not in the registry *)
Definition unknown_function : value :=
  VDict [("success", VBool false); ("data", VStr "unknown function called")].

Module Eve.
Section Eve.

Variable w : World.
(* the instances bound to the module's names [weather], [news], [google] *)
Variables weather news google : instance.
Variable self : instance.

(** [json.loads(s)] *)
Definition json_loads (s : string) : M value :=
  match json.decode s with
  | json.Parsed v _ => ret v
  | json.Invalid => raise (Exc JSONDecodeError (json_error_message w s))
  | json.OutOfFuel => undetermined
  end.

(** [ollama.chat(model, messages, stream=True)] *)
Definition ollama_chat_stream (model : value) (messages : list value)
  : M (list string * option exc) :=
  fun st =>
    (Ok (ollama_chat w (clock st) model messages),
     mkState (stdout st) (S (clock st))).

(** [for message in response: token = ...; print(token, end=""); text += token] *)
Definition echo (response : list string * option exc) : M string :=
  mapM print_no_end (fst response) ;;;
  match snd response with
  | Some e => raise e
  | None => ret (String.concat EmptyString (fst response))
  end.

Definition message (role : string) (content : value) : value :=
  VDict [("role", VStr role); ("content", content)].

Definition _call_module (tool_dict user_input : value) : M value :=
  tool_name <- method_get tool_dict "tool" VNone ;;
  input_value <- method_get tool_dict "input" user_input ;;
  tools <- getattr self "TOOLS" ;;
  found <- registry_find tools tool_name ;;
  match found with
  | Some _ =>
      tools <- getattr self "TOOLS" ;;
      found <- registry_find tools tool_name ;;
      match found with
      | Some tool_func =>
          response <- call_attr tool_func [input_value] ;;
          ret response
      | None => raise (Exc KeyError (repr tool_name))
      end
  | None => ret unknown_function
  end.

Definition _generate_response (tool_response user_text data : value)
  : M value :=
  model <- attr_value self "MODEL" ;;
  responder <- attr_value self "SYSTEM_PROMPT_RESPONDER" ;;
  n <- len data ;;
  let shown :=
    if decide (n < 300) then str_ data
    else "Data is too long just say heres some additional info" in
  response <-
    ollama_chat_stream model
      [message "system" responder;
       message "user"
         (VStr ("User Input :-" ++ newline ++ str_ user_text ++ newline
                ++ "Tool Response :-" ++ newline ++ str_ tool_response
                ++ " Data :- " ++ shown))] ;;
  text <- echo response ;;
  head <- slice_to 1000 data ;;
  print (newline ++ "```" ++ newline ++ "Data :- " ++ str_ head ++ " " ++ newline) ;;;
  ret VNone.

Definition _extract_json (generated_text user_text : value) : M value :=
  match generated_text with
  | VStr text =>
      match re.search pattern text with
      | Some group =>
          tool <- json_loads group ;;
          print ("Tool :- " ++ str_ tool) ;;;
          response <- invoke self "_call_module" [tool; user_text] ;;
          print ("Response :  " ++ str_ response) ;;;
          succes <- getitem response "success" ;;
          data <- getitem response "data" ;;
          invoke self "_generate_response" [succes; user_text; data] ;;;
          ret VNone
      | None =>
          print ("Medusa :- " ++ str_ generated_text) ;;;
          ret VNone
      end
  | _ => raise (Exc TypeError "expected string or bytes-like object")
  end.

(** The loop of [run], over the lines the user will type: each turn reads
    one, so the loop is recursive in them; [input] raises EOFError when
    there is none left. *)
Fixpoint run_loop (lines : list string) : M value :=
  print EmptyString ;;;
  write "Chat with Eve :-" ;;;
  match lines with
  | [] => raise (Exc EOFError "EOF when reading a line")
  | user_input :: lines' =>
      if String.eqb user_input "break" then ret VNone
      else
        model <- attr_value self "MODEL" ;;
        system_prompt <- attr_value self "SYSTEM_PROMPT" ;;
        response <-
          ollama_chat_stream model
            [message "system" system_prompt;
             message "user" (VStr user_input)] ;;
        text <- echo response ;;
        print newline ;;;
        invoke self "_extract_json" [VStr text; VStr user_input] ;;;
        run_loop lines'
  end.

Definition run : M value := run_loop (stdin w).

Definition class : object :=
  <["__module__" := AValue (VStr "__main__")]>
  (<["_wrap_modules" := ACallable bound__wrap_modules]>
  (<["_call_module" :=
       ACallable (method2 "_call_module" (Some (VStr EmptyString)) _call_module)]>
  (<["_generate_response" :=
       ACallable (method3 "_generate_response" (Some (VStr EmptyString))
                    _generate_response)]>
  (<["_extract_json" :=
       ACallable (method2 "_extract_json" (Some (VStr EmptyString)) _extract_json)]>
  (<["run" := ACallable (method0 "run" run)]> ∅))))).

Definition __init__ (self : object) : M object :=
  let self := ErrorHandler___init__ w self in
  print "Initializing Eve" ;;;
  let self := <["MODEL" := AValue (getenv w "MODEL")]> self in
  let self := <["SYSTEM_PROMPT" := AValue (getenv w "SYSTEM_PROMPT_TOOL")]> self in
  let self :=
    <["SYSTEM_PROMPT_RESPONDER" := AValue (getenv w "SYSTEM_PROMPT_RESPONDER")]>
      self in
  weather_main <- getattr weather "main" ;;
  news_main <- getattr news "main" ;;
  google_main <- getattr google "main" ;;
  let self :=
    <["TOOLS" := ADict (<["get_weather" := weather_main]>
                       (<["get_news" := news_main]>
                       (<["get_search" := google_main]> ∅)))]> self in
  print ("System prompt :  " ++ str_ (getenv w "SYSTEM_PROMPT_TOOL")) ;;;
  print ("System prompt responder :  "
         ++ str_ (getenv w "SYSTEM_PROMPT_RESPONDER")) ;;;
  ret self.

End Eve.

(** [Eve()], to a depth (see [Weather.new]) *)
Fixpoint new (w : World) (weather news google : instance) (depth : nat)
  : instance :=
  match depth with
  | O => None
  | S d =>
      constructed (__init__ w weather news google
                     (class w (new w weather news google d)))
  end.

End Eve.

(** ** The module's statements *)


(** ** Worlds and operations used in examples *)

Definition connection_error : exc :=
  Exc (ExceptionSubclass "ConnectionError") "Connection refused".

(** No network and no model server; the user types two lines, none of them
    [break]. *)
Definition offline : World :=
  {| getenv := fun _ => VNone;
     requests_get := fun _ _ => Raise connection_error;
     ollama_chat := fun _ _ _ => ([], Some connection_error);
     stdin := ["hello"; "what is the weather in delhi"];
     yesterday := fun _ => "2025-01-01";
     soup_content_paragraphs := fun _ => Ok None;
     format_exc := fun e => "Traceback (most recent call last): " ++ exc_str e;
     json_error_message := fun _ => "Expecting value" |}.

(** As [offline], but the user interrupts every request (Ctrl-C). *)
Definition interrupted : World :=
  {| getenv := getenv offline;
     requests_get := fun _ _ => Raise (Exc KeyboardInterrupt EmptyString);
     ollama_chat := ollama_chat offline;
     stdin := stdin offline;
     yesterday := yesterday offline;
     soup_content_paragraphs := soup_content_paragraphs offline;
     format_exc := format_exc offline;
     json_error_message := json_error_message offline |}.


(** Every request fails with an error that names the address asked for. *)
Definition echoing : World :=
  {| getenv := getenv offline;
     requests_get := fun _ url =>
       Raise (Exc (ExceptionSubclass "ConnectionError")
                ("Cannot connect to " ++ str_ url));
     ollama_chat := ollama_chat offline;
     stdin := stdin offline;
     yesterday := yesterday offline;
     soup_content_paragraphs := soup_content_paragraphs offline;
     format_exc := format_exc offline;
     json_error_message := json_error_message offline |}.

(** The text with every single quote turned into a double quote *)
Fixpoint dq (s : string) : string :=
  match s with
  | EmptyString => EmptyString
  | String c s' => String (if Ascii.eqb c squote then dquote else c) (dq s')
  end.

(** A reply of the model with a tool call in it, and the request it holds *)
Definition sure_thing : string :=
  dq "Sure thing! {'tool':'get_weather','input':'delhi'} — let me check.".
Definition delhi_request : value :=
  VDict [("tool", VStr "get_weather"); ("input", VStr "delhi")].


(** The model answers with a tool call that is not JSON; the user asks
    once and then enters [break]. *)
Definition confused : World :=
  {| getenv := getenv offline;
     requests_get := requests_get offline;
     ollama_chat := fun _ _ _ =>
       (["Let me look: "; dq "{'tool':'get_weather',}"; " one moment."], None);
     stdin := ["weather?"; "break"];
     yesterday := yesterday offline;
     soup_content_paragraphs := soup_content_paragraphs offline;
     format_exc := format_exc offline;
     json_error_message := json_error_message offline |}.

(** A body of the weather service without [daily_chance_of_rain] *)
Definition delhi_weather : value :=
  VDict
    [("location", VDict [("name", VStr "Delhi")]);
     ("current",
      VDict [("condition", VDict [("text", VStr "Sunny")]);
             ("temp_c", VFloat "31.0");
             ("feelslike_c", VFloat "33.4");
             ("humidity", VInt 40)]);
     ("forecast",
      VDict [("forecastday",
              VList [VDict [("day",
                VDict [("maxtemp_c", VFloat "35.1");
                       ("mintemp_c", VFloat "24.0");
                       ("condition", VDict [("text", VStr "Partly Cloudy")])])]])])].

(** Every request is answered with status 200 and that body. *)
Definition sunny : World :=
  {| getenv := getenv offline;
     requests_get := fun _ _ => Ok (mkResponse 200 (Ok delhi_weather) (Ok EmptyString));
     ollama_chat := ollama_chat offline;
     stdin := stdin offline;
     yesterday := yesterday offline;
     soup_content_paragraphs := soup_content_paragraphs offline;
     format_exc := format_exc offline;
     json_error_message := json_error_message offline |}.

(** Every request is answered with status 429 and a JSON body that has a
    message. *)
Definition rate_limited : World :=
  {| getenv := getenv offline;
     requests_get := fun _ _ =>
       Ok (mkResponse 429
             (Ok (VDict [("status", VStr "error");
                         ("message", VStr "You have made too many requests")]))
             (Ok EmptyString));
     ollama_chat := ollama_chat offline;
     stdin := stdin offline;
     yesterday := yesterday offline;
     soup_content_paragraphs := soup_content_paragraphs offline;
     format_exc := format_exc offline;
     json_error_message := json_error_message offline |}.

(** [sys.exit] *)
Definition sys_exit : callable :=
  {| __name__ := "exit";
     call := fun _ => raise (Exc SystemExit "0") |}.

(** [lambda *args: 1 / 0] *)
Definition divide_by_zero : callable :=
  {| __name__ := "<lambda>";
     call := fun _ => raise (Exc (ExceptionSubclass "ZeroDivisionError")
                               "division by zero") |}.

(** [len] *)
Definition builtin_len : callable :=
  {| __name__ := "len";
     call := fun args =>
       match args with
       | [v] => n <- len v ;; ret (VInt (Z.of_nat n))
       | _ => arity_error "len"
       end |}.

Definition initial : State := mkState [] 0.

(** The subclasses of [ErrorHandler] in the program *)
Inductive subclass : Type :=
| Weather_
| News_
| GoogleSearch_
| Eve_ (weather news google : instance).

Definition class_of (w : World) (c : subclass) : instance -> object :=
  match c with
  | Weather_ => Weather.class w
  | News_ => News.class w
  | GoogleSearch_ => GoogleSearch.class w
  | Eve_ _ _ _ => Eve.class w
  end.

Definition new_of (w : World) (c : subclass) : nat -> instance :=
  match c with
  | Weather_ => Weather.new w
  | News_ => News.new w
  | GoogleSearch_ => GoogleSearch.new w
  | Eve_ weather news google => Eve.new w weather news google
  end.

(** ** Notions used in the statements *)

(** The instances the module binds to [weather], [news], [google] and
    [eve], deep enough for every chain of calls on [self]. *)
Definition weather_of (w : World) : instance := Weather.new w 3.
Definition news_of (w : World) : instance := News.new w 4.
Definition google_of (w : World) : instance := GoogleSearch.new w 4.
Definition eve_at (w : World) (depth : nat) : instance :=
  Eve.new w (weather_of w) (news_of w) (google_of w) depth.
Definition eve_of (w : World) : instance := eve_at w 4.

(** What [weather.main], [news.main] and [google.main] are then, and the
    registry built from them *)
Definition weather_main (w : World) : attr :=
  ACallable (safe_run w (method1 "main" (Some (VStr "india"))
                           (Weather.main (Weather.new w 2)))).
Definition news_main (w : World) : attr :=
  ACallable (safe_run w (method1 "main" (Some (VStr "india"))
                           (News.main (News.new w 3)))).
Definition google_main (w : World) : attr :=
  ACallable (safe_run w (method1 "main" (Some (VStr EmptyString))
                           (GoogleSearch.main (GoogleSearch.new w 3)))).
Definition tools_of (w : World) : gmap string attr :=
  <["get_weather" := weather_main w]>
  (<["get_news" := news_main w]>
  (<["get_search" := google_main w]> ∅)).

(** The registry of tools of an instance of [Eve] *)
Definition registry (self : instance) : gmap string attr :=
  match self with
  | Some o =>
      match o !! "TOOLS" with
      | Some (ADict tools) => tools
      | _ => ∅
      end
  | None => ∅
  end.

(** The input [_call_module] passes on *)
Definition passed_input (d : list (string * value)) (user_input : value) : value :=
  from_option id user_input (dict_lookup "input" d).

(** A dict with a boolean under [success] *)
Definition has_boolean_success (v : value) : Prop :=
  exists d b, v = VDict d /\ dict_lookup "success" d = Some (VBool b).

(** The state after the diagnostic line of the wrapper *)
Definition logged (func : callable) (e : exc) (st : State) : State :=
  mkState (stdout st ++ [("Error in " ++ __name__ func ++ ": " ++ exc_str e)
                         ++ newline])
          (clock st).

(** What [_wrap_modules] leaves under a name *)
Definition wrapped_attr (w : World) (name : string) (a : attr) : attr :=
  if String.prefix "__" name then a
  else match a with
       | ACallable f => ACallable (safe_run w f)
       | _ => a
       end.

(** Every attribute that the class gives under a name that does not start
    with two underscores is in [o] in its wrapped form when it is callable,
    and [o] has no other callable under such a name. *)
Definition all_wrapped (w : World) (cls o : object) : Prop :=
  forall name, String.prefix "__" name = false ->
    (forall f, cls !! name = Some (ACallable f) ->
       o !! name = Some (ACallable (safe_run w f)))
    /\ (forall a, o !! name = Some a -> is_callable a = true ->
          exists f, cls !! name = Some (ACallable f)
                    /\ a = ACallable (safe_run w f)).

(** What a computation raises is an instance of [Exception], it is never
    [Undetermined], and what it returns satisfies [Q]. *)
Definition post {A} (c : M A) (Q : A -> Prop) : Prop :=
  forall st,
    match c st with
    | (Ok a, _) => Q a
    | (Raise e, _) => isinstance_Exception e = true
    | (Undetermined, _) => False
    end.

(** A computation returns, in every state, a result that satisfies [Q]. *)
Definition total {A} (c : M A) (Q : A -> Prop) : Prop :=
  forall st, exists a st', c st = (Ok a, st') /\ Q a.

Definition tame_outcome {A} (o : outcome A) : Prop :=
  match o with
  | Ok _ => True
  | Raise e => isinstance_Exception e = true
  | Undetermined => False
  end.

(** No call to the outside world is interrupted: what a request, a
    response, the scraper or the stream of the model raises is an instance
    of [Exception]. *)
Definition tame_world (w : World) : Prop :=
  (forall t url,
      match requests_get w t url with
      | Ok r => tame_outcome (json r) /\ tame_outcome (content_decode r)
      | Raise e => isinstance_Exception e = true
      | Undetermined => False
      end)
  /\ (forall v, tame_outcome (soup_content_paragraphs w v))
  /\ (forall t model messages e,
        (ollama_chat w t model messages).2 = Some e ->
        isinstance_Exception e = true).

(** An error object built by a wrapper *)
Definition is_error_object (w : World) (v : value) : Prop :=
  exists f e, v = error_data w f e.

Definition is_str (v : value) : Prop := exists s, v = VStr s.

Definition anything {A} (a : A) : Prop := True.

(** The tools of the registry *)
Inductive tool : Type := weather_tool | news_tool | search_tool.

Definition tool_instance (w : World) (t : tool) : instance :=
  match t with
  | weather_tool => weather_of w
  | news_tool => news_of w
  | search_tool => google_of w
  end.



(** An envelope [{success, data}] with a text as data *)
Definition is_envelope (v : value) : Prop :=
  exists b s, v = output_json b (VStr s).


(** The state after [print()] and the prompt of [input] *)
Definition prompted (st : State) : State :=
  mkState ((stdout st ++ [EmptyString ++ newline]) ++ ["Chat with Eve :-"])
          (clock st).

(** The state after one more call to the outside world *)
Definition asked (st : State) : State := mkState (stdout st) (S (clock st)).

(** The state after the tokens were echoed *)
Definition echoed (tokens : list string) (st : State) : State :=
  mkState (stdout st ++ tokens) (clock st).

(** The state of the loop of [run] when it calls [_extract_json], after the
    tokens of the model's reply *)
Definition replied (tokens : list string) (st : State) : State :=
  mkState (stdout (echoed tokens (asked (prompted st))) ++ [newline ++ newline])
          (clock (echoed tokens (asked (prompted st)))).

(** The messages [run] sends to the model for a line of the user *)
Definition routing_messages (w : World) (user_input : string) : list value :=
  [Eve.message "system" (getenv w "SYSTEM_PROMPT_TOOL");
   Eve.message "user" (VStr user_input)].

(** The method [_extract_json] as the instance holds it under its wrapper *)
Definition extract_json_method (w : World) (self : instance) : callable :=
  method2 "_extract_json" (Some (VStr EmptyString)) (Eve._extract_json w self).

(** The method [run] as the instance holds it under its wrapper *)
Definition run_method (w : World) (self : instance) : callable :=
  method0 "run" (Eve.run w self).

(** The request names no tool: it has no [tool] key, or a number, a boolean
    or null under it *)
Definition names_no_tool (request : list (string * value)) : bool :=
  match dict_lookup "tool" request with
  | None | Some VNone | Some (VBool _) | Some (VInt _) | Some (VFloat _) => true
  | _ => false
  end.

(** The request has a list or an object under [tool] *)
Definition unhashable_tool (request : list (string * value)) : bool :=
  match dict_lookup "tool" request with
  | Some (VList _) | Some (VDict _) => true
  | _ => false
  end.

(** A reply of the model whose tool call has the key [tool] twice, the
    second time with a list *)
Definition tool_twice : string :=
  dq "{'tool': 'get_news', 'tool': ['get_news']}".

(** The text [_news_format] makes of an article, when it makes one *)
Definition article_text (news : value) : option string :=
  match News._news_format news initial with
  | (Ok (VStr s), _) => Some s
  | _ => None
  end.

(** An article as NewsAPI gives it, and one without its [url] *)
Definition article (name description url : string) : value :=
  VDict [("source", VDict [("id", VNone); ("name", VStr name)]);
         ("description", VStr description);
         ("url", VStr url)].

Definition article_without_url (name description : string) : value :=
  VDict [("source", VDict [("id", VNone); ("name", VStr name)]);
         ("description", VStr description)].

(** Every request is answered with status 200 and these articles. *)
Definition newsstand (articles : list value) : World :=
  {| getenv := getenv offline;
     requests_get := fun _ _ =>
       Ok (mkResponse 200
             (Ok (VDict [("status", VStr "ok");
                         ("totalResults", VInt (Z.of_nat (length articles)));
                         ("articles", VList articles)]))
             (Ok EmptyString));
     ollama_chat := ollama_chat offline;
     stdin := stdin offline;
     yesterday := yesterday offline;
     soup_content_paragraphs := soup_content_paragraphs offline;
     format_exc := format_exc offline;
     json_error_message := json_error_message offline |}.

(** What the wrapped [_news_format] returns for an article: its text, or an
    error object *)
Definition formatted_as (news v : value) : Prop :=
  match article_text news with
  | Some s => v = VStr s
  | None => exists d, v = VDict d
  end.

(** What the search API answers for a topic with one result, and for one
    with none *)
Definition one_result : value :=
  VDict [("kind", VStr "customsearch#search");
         ("items", VList
            [VDict [("title", VStr "Elon Musk - Wikipedia");
                    ("formattedUrl",
                     VStr "https://en.wikipedia.org/wiki/Elon_Musk")]])].

Definition no_result : value :=
  VDict [("kind", VStr "customsearch#search");
         ("searchInformation", VDict [("totalResults", VStr "0")])].

(** The first request (the search) is answered with status 200 and
    [results]; every later one (the page) with [page_status] and a page in
    which the scraper finds [paragraphs]. *)
Definition encyclopedia (results : value) (page_status : Z)
    (paragraphs : option (list string)) : World :=
  {| getenv := getenv offline;
     requests_get := fun t _ =>
       match t with
       | O => Ok (mkResponse 200 (Ok results) (Ok EmptyString))
       | S _ => Ok (mkResponse page_status
                      (Raise (Exc (ExceptionSubclass "JSONDecodeError")
                                "Expecting value: line 1 column 1 (char 0)"))
                      (Ok "<html></html>"))
       end;
     ollama_chat := ollama_chat offline;
     stdin := stdin offline;
     yesterday := yesterday offline;
     soup_content_paragraphs := fun _ => Ok paragraphs;
     format_exc := format_exc offline;
     json_error_message := json_error_message offline |}.

(** [sub in s] *)
Fixpoint occurs (sub s : string) : bool :=
  String.prefix sub s
  || match s with
     | String _ s' => occurs sub s'
     | EmptyString => false
     end.

(** A reply of the model that spells the key of the tool call with a
    capital letter *)
Definition capital_tool : string :=
  dq "Sure! {'Tool': 'get_weather', 'input': 'delhi'}".



(** * Properties *)

(** ** The wrapper *)

Section HandlerFacts.

Variable w : World.

Lemma safe_run_call (func : callable) (args : list value) (st : State) :
  call (safe_run w func) args st =
  match call func args st with
  | (Ok v, st') => (Ok v, st')
  | (Raise e, st') =>
      if isinstance_Exception e
      then (Ok (error_data w func e), logged func e st')
      else (Raise e, st')
  | (Undetermined, st') => (Undetermined, st')
  end.
Proof.
  cbn [safe_run call]. unfold try_except.
  destruct (call func args st) as [[v | e |] st']; reflexivity.
Qed.

Lemma wrap_step_lookup (o : object) (a n : string) :
  wrap_step w o a !! n =
  if decide (n = a) then wrapped_attr w a <$> o !! a else o !! n.
Proof.
  unfold wrap_step, wrapped_attr.
  destruct (String.prefix "__" a).
  - case_decide; subst; [ by destruct (o !! a) | done ].
  - destruct (o !! a) as [[v | f | d] |] eqn:E;
      case_decide; subst; rewrite ?E; try done.
    + by rewrite lookup_insert_eq.
    + by rewrite lookup_insert_ne.
Qed.

Lemma foldl_wrap_step_lookup (l : list string) :
  NoDup l ->
  forall (o : object) (n : string),
    foldl (wrap_step w) o l !! n =
    if decide (n ∈ l) then wrapped_attr w n <$> o !! n else o !! n.
Proof.
  induction 1 as [| a l Ha Hl IH]; intros o n; cbn [foldl].
  - rewrite decide_False; [ done | apply not_elem_of_nil ].
  - rewrite IH, !wrap_step_lookup.
    destruct (decide (n ∈ l)) as [Hn | Hn].
    + rewrite decide_False by (intros ->; contradiction).
      rewrite decide_True by (right; exact Hn). done.
    + destruct (decide (n = a)) as [-> | Hne].
      * rewrite decide_True by left. done.
      * rewrite decide_False; [ done | ].
        intros [? | ?]%elem_of_cons; contradiction.
Qed.

(** After [_wrap_modules], every attribute is what it was, wrapped when it
    is callable and its name does not start with two underscores. *)
Lemma wrap_modules_lookup (o : object) (n : string) :
  _wrap_modules w o !! n = wrapped_attr w n <$> o !! n.
Proof.
  unfold _wrap_modules, dir.
  rewrite foldl_wrap_step_lookup by apply NoDup_fst_map_to_list.
  case_decide as Hn; [ done | ].
  destruct (o !! n) as [a |] eqn:E; [ | done ].
  exfalso. apply Hn, list_elem_of_fmap. exists (n, a).
  split; [ done | by apply elem_of_map_to_list ].
Qed.

End HandlerFacts.

(** ** Construction *)

(** Unfolds the plumbing of computations, and nothing else. *)
Ltac run_py :=
  cbv beta iota zeta
      delta [bind ret raise undetermined lift try_except write print
             print_no_end external getattr invoke attr_value call_attr].


Lemma constructed_ret (o : object) : constructed (ret o) = Some o.
Proof. reflexivity. Qed.

Section Construction.

Variable w : World.

Lemma all_wrapped_init (cls : object) :
  all_wrapped w cls (ErrorHandler___init__ w cls).
Proof.
  intros name Hn. unfold ErrorHandler___init__.
  rewrite wrap_modules_lookup. unfold wrapped_attr. rewrite Hn. split.
  - by intros f ->.
  - intros a. destruct (cls !! name) as [[v | f | d] |];
      cbn; intros [= <-]; try done. eauto.
Qed.

Lemma all_wrapped_insert (cls o : object) (k : string) (a : attr) :
  all_wrapped w cls o -> is_callable a = false -> cls !! k = None ->
  all_wrapped w cls (<[k := a]> o).
Proof.
  intros H Ha Hk name Hn. destruct (H name Hn) as [H1 H2]. split.
  - intros f Hf. rewrite lookup_insert_ne by congruence. eauto.
  - intros a'. rewrite lookup_insert. case_decide; subst; [ | apply H2 ].
    intros [= <-]. congruence.
Qed.

Lemma new_all_wrapped (c : subclass) (d : nat) (o : object) :
  new_of w c (S d) = Some o -> all_wrapped w (class_of w c (new_of w c d)) o.
Proof.
  destruct c as [| | | weather news google]; cbn [new_of class_of].
  - cbn [Weather.new]. unfold Weather.__init__. rewrite constructed_ret.
    intros <-%(inj Some).
    do 3 (apply all_wrapped_insert; [ | reflexivity | reflexivity ]).
    apply all_wrapped_init.
  - cbn [News.new]. unfold News.__init__. rewrite constructed_ret.
    intros <-%(inj Some).
    do 3 (apply all_wrapped_insert; [ | reflexivity | reflexivity ]).
    apply all_wrapped_init.
  - cbn [GoogleSearch.new]. unfold GoogleSearch.__init__. rewrite constructed_ret.
    intros <-%(inj Some).
    do 3 (apply all_wrapped_insert; [ | reflexivity | reflexivity ]).
    apply all_wrapped_init.
  - cbn [Eve.new]. unfold constructed, Eve.__init__. run_py.
    destruct weather as [ow |]; [ | discriminate ].
    destruct (ow !! "main"); [ | discriminate ].
    destruct news as [on |]; [ | discriminate ].
    destruct (on !! "main"); [ | discriminate ].
    destruct google as [og |]; [ | discriminate ].
    destruct (og !! "main"); [ | discriminate ].
    intros <-%(inj Some).
    do 4 (apply all_wrapped_insert; [ | reflexivity | reflexivity ]).
    apply all_wrapped_init.
Qed.

Lemma safe_run_raises_no_Exception
    (f : callable) (args : list value) (st st' : State) (e : exc) :
  call (safe_run w f) args st = (Raise e, st') -> isinstance_Exception e = false.
Proof.
  rewrite safe_run_call.
  destruct (call f args st) as [[v | e' |] st'']; try done.
  destruct (isinstance_Exception e') eqn:E; [ done | ].
  by intros [= <- _].
Qed.

End Construction.

(** ** The instances *)

Section Instances.

Variable w : World.

Lemma Weather_new_S (d : nat) :
  exists o, Weather.new w (S d) = Some o
    /\ o !! "main" = Some (ACallable (safe_run w
         (method1 "main" (Some (VStr "india")) (Weather.main (Weather.new w d)))))
    /\ o !! "_fetch_weather" = Some (ACallable (safe_run w
         (method1 "_fetch_weather" None
            (Weather._fetch_weather w (Weather.new w d)))))
    /\ o !! "_format_data" = Some (ACallable (safe_run w
         (method1 "_format_data" None Weather._format_data)))
    /\ o !! "_api_key" = Some (AValue (getenv w "WEATHER_API_KEY"))
    /\ o !! "_url" = Some (AValue (VStr
         "http://api.weatherapi.com/v1/forecast.json?key={}&q={}&aqi=no")).
Proof. eexists. repeat split; reflexivity. Qed.

Lemma News_new_S (d : nat) :
  exists o, News.new w (S d) = Some o
    /\ o !! "main" = Some (ACallable (safe_run w
         (method1 "main" (Some (VStr "india")) (News.main (News.new w d)))))
    /\ o !! "_fetch_news" = Some (ACallable (safe_run w
         (method1 "_fetch_news" None (News._fetch_news w (News.new w d)))))
    /\ o !! "_filter_data" = Some (ACallable (safe_run w
         (method1 "_filter_data" None (News._filter_data (News.new w d)))))
    /\ o !! "_news_format" = Some (ACallable (safe_run w
         (method1 "_news_format" None News._news_format)))
    /\ o !! "_api_key" = Some (AValue (getenv w "NEWS_API_KEY"))
    /\ o !! "_api_url" = Some (AValue (VStr
         "https://newsapi.org/v2/everything?q={}&from={}&sortBy=publishedAt&apiKey={}")).
Proof. eexists. repeat split; reflexivity. Qed.

Lemma GoogleSearch_new_S (d : nat) :
  exists o, GoogleSearch.new w (S d) = Some o
    /\ o !! "main" = Some (ACallable (safe_run w
         (method1 "main" (Some (VStr EmptyString))
            (GoogleSearch.main (GoogleSearch.new w d)))))
    /\ o !! "_do_google_search" = Some (ACallable (safe_run w
         (method1 "_do_google_search" None
            (GoogleSearch._do_google_search w (GoogleSearch.new w d)))))
    /\ o !! "_get_webpage" = Some (ACallable (safe_run w
         (method1 "_get_webpage" None
            (GoogleSearch._get_webpage w (GoogleSearch.new w d)))))
    /\ o !! "_scrape_webpage" = Some (ACallable (safe_run w
         (method1 "_scrape_webpage" None (GoogleSearch._scrape_webpage w))))
    /\ o !! "_api_key" = Some (AValue (getenv w "SEARCH_API_KEY"))
    /\ o !! "_cx" = Some (AValue (getenv w "SEARCH_CSX_ID")).
Proof. eexists. repeat split; reflexivity. Qed.

Lemma Eve_new_S (weather news google : instance) (ow on og : object)
    (wm nm gm : attr) (d : nat) :
  weather = Some ow -> ow !! "main" = Some wm ->
  news = Some on -> on !! "main" = Some nm ->
  google = Some og -> og !! "main" = Some gm ->
  let self := Eve.new w weather news google d in
  exists o, Eve.new w weather news google (S d) = Some o
    /\ o !! "TOOLS" = Some (ADict (<["get_weather" := wm]>
                                  (<["get_news" := nm]>
                                  (<["get_search" := gm]> ∅))))
    /\ o !! "MODEL" = Some (AValue (getenv w "MODEL"))
    /\ o !! "SYSTEM_PROMPT" = Some (AValue (getenv w "SYSTEM_PROMPT_TOOL"))
    /\ o !! "SYSTEM_PROMPT_RESPONDER"
       = Some (AValue (getenv w "SYSTEM_PROMPT_RESPONDER"))
    /\ o !! "_call_module" = Some (ACallable (safe_run w
         (method2 "_call_module" (Some (VStr EmptyString))
            (Eve._call_module self))))
    /\ o !! "_generate_response" = Some (ACallable (safe_run w
         (method3 "_generate_response" (Some (VStr EmptyString))
            (Eve._generate_response w self))))
    /\ o !! "_extract_json" = Some (ACallable (safe_run w
         (method2 "_extract_json" (Some (VStr EmptyString))
            (Eve._extract_json w self))))
    /\ o !! "run" = Some (ACallable (safe_run w
         (method0 "run" (Eve.run w self)))).
Proof.
  intros -> Hw -> Hn -> Hg self.
  cbn [Eve.new]. unfold constructed, Eve.__init__. run_py.
  rewrite Hw, Hn, Hg.
  eexists. split; [ reflexivity | ]. repeat split; reflexivity.
Qed.

End Instances.

(** ** Dispatch *)

Lemma bind_ret_r {A} (c : M A) (st : State) : bind c ret st = c st.
Proof. unfold bind, ret. by destruct (c st) as [[a | e |] st']. Qed.

Lemma call_module_eq (o : object) (tools : gmap string attr)
    (d : list (string * value)) (user_input : value) (st : State) :
  o !! "TOOLS" = Some (ADict tools) ->
  Eve._call_module (Some o) (VDict d) user_input st =
  match dict_lookup "tool" d with
  | Some (VStr name) =>
      match tools !! name with
      | Some tool_func => call_attr tool_func [passed_input d user_input] st
      | None => (Ok unknown_function, st)
      end
  | Some (VList l) => (Raise (Exc TypeError "unhashable type: 'list'"), st)
  | Some (VDict l) => (Raise (Exc TypeError "unhashable type: 'dict'"), st)
  | _ => (Ok unknown_function, st)
  end.
Proof.
  intros Htools. unfold Eve._call_module, method_get, passed_input.
  unfold bind at 1 2 3. cbv beta iota delta [ret getattr]. rewrite Htools.
  cbv beta iota.
  destruct (dict_lookup "tool" d) as [[| b | n | x | name | l | l] |];
    cbn [from_option id registry_find]; try reflexivity.
  unfold bind at 1. cbv beta iota delta [ret].
  destruct (tools !! name) as [tool_func |] eqn:E; [ | reflexivity ].
  unfold bind at 1 2. cbv beta iota delta [ret getattr].
  cbn [registry_find]. unfold ret at 1. rewrite E.
  apply bind_ret_r.
Qed.

Section EveFacts.
Variable w : World.

Lemma eve_at_S (d : nat) :
  exists o, eve_at w (S d) = Some o
    /\ o !! "TOOLS" = Some (ADict (tools_of w))
    /\ o !! "MODEL" = Some (AValue (getenv w "MODEL"))
    /\ o !! "SYSTEM_PROMPT" = Some (AValue (getenv w "SYSTEM_PROMPT_TOOL"))
    /\ o !! "SYSTEM_PROMPT_RESPONDER"
       = Some (AValue (getenv w "SYSTEM_PROMPT_RESPONDER"))
    /\ o !! "_call_module" = Some (ACallable (safe_run w
         (method2 "_call_module" (Some (VStr EmptyString))
            (Eve._call_module (eve_at w d)))))
    /\ o !! "_generate_response" = Some (ACallable (safe_run w
         (method3 "_generate_response" (Some (VStr EmptyString))
            (Eve._generate_response w (eve_at w d)))))
    /\ o !! "_extract_json" = Some (ACallable (safe_run w
         (method2 "_extract_json" (Some (VStr EmptyString))
            (Eve._extract_json w (eve_at w d)))))
    /\ o !! "run" = Some (ACallable (safe_run w
         (method0 "run" (Eve.run w (eve_at w d))))).
Proof.
  destruct (Weather_new_S w 2) as (ow & Hw & Hwm & _).
  destruct (News_new_S w 3) as (on & Hn & Hnm & _).
  destruct (GoogleSearch_new_S w 3) as (og & Hg & Hgm & _).
  apply (Eve_new_S w _ _ _ ow on og _ _ _ d Hw Hwm Hn Hnm Hg Hgm).
Qed.

Lemma registry_eve_at (d : nat) : registry (eve_at w (S d)) = tools_of w.
Proof.
  destruct (eve_at_S d) as (o & -> & H & _). unfold registry. by rewrite H.
Qed.

Lemma tools_of_lookup (name : string) :
  tools_of w !! name =
  if decide (name = "get_weather") then Some (weather_main w)
  else if decide (name = "get_news") then Some (news_main w)
  else if decide (name = "get_search") then Some (google_main w)
  else None.
Proof.
  unfold tools_of. rewrite !lookup_insert, lookup_empty.
  repeat case_decide; congruence.
Qed.

Lemma tools_of_wrapped (name : string) (tool_func : attr) :
  tools_of w !! name = Some tool_func ->
  exists f, tool_func = ACallable (safe_run w f).
Proof.
  rewrite tools_of_lookup.
  repeat case_decide; intros [= <-]; eexists; reflexivity.
Qed.

(** The attribute [_call_module] of the instance, called with two
    arguments, is the method in its wrapper. *)
Lemma invoke_call_module (d : nat) (request fallback : value) (st : State) :
  invoke (eve_at w (S (S d))) "_call_module" [request; fallback] st =
  match Eve._call_module (eve_at w (S d)) request fallback st with
  | (Raise e, st') =>
      if isinstance_Exception e
      then (Ok (error_data w (method2 "_call_module" (Some (VStr EmptyString))
                               (Eve._call_module (eve_at w (S d)))) e),
            logged (method2 "_call_module" (Some (VStr EmptyString))
                      (Eve._call_module (eve_at w (S d)))) e st')
      else (Raise e, st')
  | r => r
  end.
Proof.
  destruct (eve_at_S (S d)) as (o & -> & _ & _ & _ & _ & H & _).
  unfold invoke. run_py. rewrite H. cbv beta iota.
  rewrite safe_run_call. cbn [call method2].
  by destruct (Eve._call_module (eve_at w (S d)) request fallback st)
    as [[v | e |] st'].
Qed.

Lemma call_module_eve (d : nat) (request : list (string * value))
    (fallback : value) (name : string) (st : State) :
  dict_lookup "tool" request = Some (VStr name) ->
  Eve._call_module (eve_at w (S d)) (VDict request) fallback st =
  match tools_of w !! name with
  | Some tool_func => call_attr tool_func [passed_input request fallback] st
  | None => (Ok unknown_function, st)
  end.
Proof.
  intros Hname. destruct (eve_at_S d) as (o & -> & H & _).
  by rewrite (call_module_eq o _ _ _ _ H), Hname.
Qed.

Lemma invoke_call_module_eve (d : nat) (request : list (string * value))
    (fallback : value) (name : string) (st : State) :
  dict_lookup "tool" request = Some (VStr name) ->
  invoke (eve_at w (S (S d))) "_call_module" [VDict request; fallback] st =
  match tools_of w !! name with
  | Some tool_func => call_attr tool_func [passed_input request fallback] st
  | None => (Ok unknown_function, st)
  end.
Proof.
  intros Hname. rewrite invoke_call_module, (call_module_eve _ _ _ name) by done.
  destruct (tools_of w !! name) as [tool_func |] eqn:E; [ | done ].
  destruct (tools_of_wrapped _ _ E) as [f ->]. cbn [call_attr].
  destruct (call (safe_run w f) [passed_input request fallback] st)
    as [[v | e |] st'] eqn:Ecall; try done.
  by rewrite (safe_run_raises_no_Exception w _ _ _ _ _ Ecall).
Qed.

Lemma invoke_main (x : value) (st : State) :
  invoke (weather_of w) "main" [x] st = call_attr (weather_main w) [x] st
  /\ invoke (news_of w) "main" [x] st = call_attr (news_main w) [x] st
  /\ invoke (google_of w) "main" [x] st = call_attr (google_main w) [x] st.
Proof. repeat split; reflexivity. Qed.

End EveFacts.


(** ** Computations that raise instances of [Exception] only *)

Section Post.

Context {A B : Type}.

Lemma post_ret (a : A) (Q : A -> Prop) : Q a -> post (ret a) Q.
Proof. intros H st. exact H. Qed.

Lemma post_raise (e : exc) (Q : A -> Prop) :
  isinstance_Exception e = true -> post (raise e) Q.
Proof. intros H st. exact H. Qed.

Lemma post_bind (c : M A) (k : A -> M B) (P : A -> Prop) (Q : B -> Prop) :
  post c P -> (forall a, P a -> post (k a) Q) -> post (bind c k) Q.
Proof.
  intros Hc Hk st. unfold bind. specialize (Hc st).
  destruct (c st) as [[a | e |] st']; [ | done | done ].
  apply (Hk a Hc st').
Qed.

Lemma post_weaken (c : M A) (P Q : A -> Prop) :
  post c P -> (forall a, P a -> Q a) -> post c Q.
Proof.
  intros Hc HPQ st. specialize (Hc st).
  destruct (c st) as [[a | e |] st']; auto.
Qed.

Lemma post_try_except (c : M A) (h : exc -> M A) (Q : A -> Prop) :
  post c Q -> (forall e, post (h e) Q) -> post (try_except c h) Q.
Proof.
  intros Hc Hh st. unfold try_except. specialize (Hc st).
  destruct (c st) as [[a | e |] st']; [ done | | done ].
  rewrite Hc. apply Hh.
Qed.

Lemma total_bind (c : M A) (k : A -> M B) (P : A -> Prop) (Q : B -> Prop) :
  total c P -> (forall a, P a -> total (k a) Q) -> total (bind c k) Q.
Proof.
  intros Hc Hk st. unfold bind.
  destruct (Hc st) as (a & st' & -> & Ha). apply (Hk a Ha st').
Qed.

Lemma total_ret (a : A) (Q : A -> Prop) : Q a -> total (ret a) Q.
Proof. intros H st. by exists a, st. Qed.

Lemma total_weaken (c : M A) (P Q : A -> Prop) :
  total c P -> (forall a, P a -> Q a) -> total c Q.
Proof.
  intros Hc HPQ st. destruct (Hc st) as (a & st' & -> & Ha). eauto.
Qed.

Lemma bind_Ok_inv (c : M A) (k : A -> M B) (st st' : State) (b : B) :
  bind c k st = (Ok b, st') ->
  exists a st1, c st = (Ok a, st1) /\ k a st1 = (Ok b, st').
Proof.
  unfold bind. destruct (c st) as [[a | e |] st1]; [ | done | done ].
  intros H. by exists a, st1.
Qed.

Lemma total_post (c : M A) (Q : A -> Prop) : total c Q -> post c Q.
Proof. intros H st. by destruct (H st) as (a & st' & -> & HQ). Qed.

End Post.

Lemma post_lift_tame {A} (o : outcome A) : tame_outcome o -> post (lift o) anything.
Proof. intros H st. unfold lift. by destruct o. Qed.

Lemma post_write (s : string) : post (write s) anything.
Proof. by intros st. Qed.

Lemma post_print (s : string) : post (print s) anything.
Proof. by intros st. Qed.

Lemma total_safe_run (w : World) (f : callable) (args : list value)
    (Q : value -> Prop) :
  post (call f args) Q ->
  total (call (safe_run w f) args) (fun v => Q v \/ is_error_object w v).
Proof.
  intros H st. rewrite safe_run_call. specialize (H st).
  destruct (call f args st) as [[v | e |] st']; [ | | done ].
  - exists v, st'. auto.
  - rewrite H. eexists _, _. split; [ done | ]. right. by exists f, e.
Qed.

(** *** The operations on data raise instances of [Exception] only *)

Lemma post_getitem (v : value) (key : string) : post (getitem v key) anything.
Proof.
  intros st. destruct v as [| b | n | x | s | l | d]; try done.
  cbn. by destruct (dict_lookup key d).
Qed.

Lemma post_getitem_0 (v : value) : post (getitem_0 v) anything.
Proof.
  intros st. destruct v as [| b | n | x | s | l | d]; try done.
  - by destruct s.
  - by destruct l.
Qed.

Lemma post_method_get (v : value) (key : string) (default : value) :
  post (method_get v key default) anything.
Proof. intros st. by destruct v. Qed.

Lemma post_method_lower (v : value) : post (method_lower v) anything.
Proof. intros st. by destruct v. Qed.

Lemma post_slice_to (n : nat) (v : value) : post (slice_to n v) anything.
Proof. intros st. by destruct v. Qed.

Lemma post_iterate (v : value) : post (iterate v) anything.
Proof. intros st. by destruct v. Qed.

Lemma post_len (v : value) : post (len v) anything.
Proof. intros st. by destruct v. Qed.

Lemma post_str_join (sep : string) (l : list value) :
  post (str_join sep l) is_str.
Proof.
  intros st. unfold str_join.
  destruct (all_str 0 l) as [ss | [i v]]; [ by eexists | done ].
Qed.

Lemma post_str_format (n : nat) :
  forall template args,
    String.length template < n -> post (str_format template args) anything.
Proof.
  induction n as [| n IH]; intros template args Hn; [ lia | ].
  destruct template as [| c rest]; [ done | ].
  cbn [String.length] in Hn.
  assert (Hplain : post (s <- str_format rest args ;; ret (String c s)) anything).
  { eapply post_bind; [ apply IH; lia | ]. intros s _. by apply post_ret. }
  cbn [str_format].
  destruct c as [[] [] [] [] [] [] [] []]; try exact Hplain.
  destruct rest as [| c' rest']; [ exact Hplain | ].
  destruct c' as [[] [] [] [] [] [] [] []]; try exact Hplain.
  destruct args as [| a args']; [ by apply post_raise | ].
  eapply post_bind; [ apply IH; cbn [String.length] in *; lia | ].
  intros s _. by apply post_ret.
Qed.

Lemma post_method_format (v : value) (args : list value) :
  post (method_format v args) is_str.
Proof.
  destruct v as [| b | n | x | s | l | d]; try by apply post_raise.
  cbn [method_format].
  eapply post_bind; [ apply (post_str_format (S (String.length s))); lia | ].
  intros s' _. apply post_ret. by eexists.
Qed.

Lemma post_mapM {A B} (f : A -> M B) (l : list A) (Q : B -> Prop) :
  (forall a, post (f a) Q) -> post (mapM f l) (Forall Q).
Proof.
  intros Hf. induction l as [| a l IH]; cbn [mapM].
  - by apply post_ret.
  - eapply post_bind; [ apply Hf | ]. intros b Hb.
    eapply post_bind; [ apply IH | ]. intros bs Hbs.
    apply post_ret. by constructor.
Qed.

(** ** The tools *)

Lemma getattr_eq (o : object) (n : string) (a : attr) (st : State) :
  o !! n = Some a -> getattr (Some o) n st = (Ok a, st).
Proof. intros H. unfold getattr. by rewrite H. Qed.

Lemma attr_value_eq (o : object) (n : string) (v : value) (st : State) :
  o !! n = Some (AValue v) -> attr_value (Some o) n st = (Ok v, st).
Proof. intros H. unfold attr_value, bind. by rewrite (getattr_eq _ _ _ _ H). Qed.

Lemma invoke_eq (o : object) (n : string) (f : callable) (args : list value)
    (st : State) :
  o !! n = Some (ACallable f) -> invoke (Some o) n args st = call f args st.
Proof. intros H. unfold invoke, bind. by rewrite (getattr_eq _ _ _ _ H). Qed.

Lemma total_getattr (o : object) (n : string) (a : attr) :
  o !! n = Some a -> total (getattr (Some o) n) (eq a).
Proof. intros H st. exists a, st. by rewrite (getattr_eq _ _ _ _ H). Qed.

Lemma total_attr_value (o : object) (n : string) (v : value) :
  o !! n = Some (AValue v) -> total (attr_value (Some o) n) (eq v).
Proof. intros H st. exists v, st. by rewrite (attr_value_eq _ _ _ _ H). Qed.

Lemma post_requests_get (w : World) (url : value) :
  tame_world w ->
  post (external (fun t => requests_get w t url))
    (fun r => tame_outcome (json r) /\ tame_outcome (content_decode r)).
Proof.
  intros (H & _) st. unfold external. specialize (H (clock st) url).
  by destruct (requests_get w (clock st) url).
Qed.

Lemma envelope_str (s : string) (st : State) :
  envelope (VStr s) st = (Ok (output_json true (VStr s)), st).
Proof. reflexivity. Qed.

Lemma envelope_error (w : World) (f : callable) (e : exc) (st : State) :
  envelope (error_data w f e) st
  = (Ok (output_json false (VStr (exc_str e))), st).
Proof. reflexivity. Qed.

Lemma total_envelope (w : World) (v : value) :
  is_str v \/ is_error_object w v -> total (envelope v) is_envelope.
Proof.
  intros [[s ->] | (f & e & ->)] st.
  - rewrite envelope_str. eexists _, _. split; [ done | by eexists _, _ ].
  - rewrite envelope_error. eexists _, _. split; [ done | by eexists _, _ ].
Qed.

Lemma envelope_Ok_inv (data v : value) (st st' : State) :
  envelope data st = (Ok v, st') -> has_boolean_success v.
Proof.
  unfold envelope. destruct (is_failure data).
  - intros (error & st1 & _ & [= <- _])%bind_Ok_inv. by eexists _, _.
  - intros [= <- _]. by eexists _, _.
Qed.

Lemma error_data_has_success (w : World) (f : callable) (e : exc) :
  has_boolean_success (error_data w f e).
Proof. by eexists _, _. Qed.

Create HintDb py.
#[export] Hint Resolve post_getitem post_getitem_0 post_method_get
  post_method_lower post_slice_to post_iterate post_len post_str_join
  post_method_format post_print post_write : py.

(** Walks along a sequence of steps, closing the steps that are operations
    on data. *)
Ltac post_tac :=
  lazymatch goal with
  | |- post (bind _ _) _ => eapply post_bind; [ post_tac | intros ? ?; post_tac ]
  | |- post (ret _) _ => idtac
  | |- post _ _ => first [ solve [ eauto with py ] | idtac ]
  end.

Lemma call_method1 (name : string) (default : option value)
    (body : value -> M value) (x : value) :
  call (method1 name default body) [x] = body x.
Proof. by destruct default. Qed.

Section WeatherFacts.

Variable w : World.

Lemma Weather_format_data_post (data : value) :
  post (Weather._format_data data) is_str.
Proof.
  unfold Weather._format_data. post_tac. apply post_ret. by eexists.
Qed.

Lemma Weather_fetch_post (d : nat) (x : value) :
  tame_world w ->
  post (Weather._fetch_weather w (Weather.new w (S d)) x) anything.
Proof.
  intros Hw. destruct (Weather_new_S w d) as (o & -> & _ & _ & _ & Hkey & Hurl).
  unfold Weather._fetch_weather.
  eapply post_bind; [ apply total_post, (total_attr_value _ _ _ Hurl) | ].
  intros ? <-.
  eapply post_bind; [ apply total_post, (total_attr_value _ _ _ Hkey) | ].
  intros ? <-.
  eapply post_bind; [ apply post_method_format | ]. intros url _.
  eapply post_bind; [ by apply post_requests_get | ]. intros data [Hjson _].
  destruct (status_code data =? 200)%Z.
  - by apply post_lift_tame.
  - eapply post_bind; [ by apply post_lift_tame | ]. intros body _.
    eapply post_bind; [ apply post_getitem | ]. intros error _.
    by apply post_raise.
Qed.

Lemma Weather_main_eq (d : nat) (x : value) (st : State) :
  Weather.main (Weather.new w (S (S d))) x st
  = (fetched <- call (safe_run w (method1 "_fetch_weather" None
                        (Weather._fetch_weather w (Weather.new w (S d))))) [x] ;;
     data <- call (safe_run w (method1 "_format_data" None
                     Weather._format_data)) [fetched] ;;
     envelope data) st.
Proof.
  destruct (Weather_new_S w (S d)) as (o & -> & _ & Hfetch & Hformat & _).
  unfold Weather.main, invoke. unfold bind at 1 2 3.
  rewrite (getattr_eq _ _ _ _ Hformat), (getattr_eq _ _ _ _ Hfetch).
  reflexivity.
Qed.

Lemma Weather_main_total (d : nat) (x : value) :
  tame_world w ->
  total (Weather.main (Weather.new w (S (S d))) x) is_envelope.
Proof.
  intros Hw st. rewrite Weather_main_eq. revert st.
  eapply total_bind.
  { apply total_safe_run. rewrite call_method1. by apply Weather_fetch_post. }
  intros fetched _.
  eapply total_bind.
  { apply total_safe_run. rewrite call_method1. apply Weather_format_data_post. }
  intros data Hdata. by apply (total_envelope w).
Qed.


End WeatherFacts.
Lemma total_call_safe_run_method1 (w : World) (name : string)
    (default : option value) (body : value -> M value) (x : value)
    (Q : value -> Prop) :
  post (body x) Q ->
  total (call (safe_run w (method1 name default body)) [x])
    (fun v => Q v \/ is_error_object w v).
Proof. intros H. apply total_safe_run. by rewrite call_method1. Qed.

Section NewsFacts.

Variable w : World.

Lemma News_news_format_post (news : value) :
  post (News._news_format news) is_str.
Proof.
  unfold News._news_format. post_tac. apply post_ret. by eexists.
Qed.

Lemma News_filter_post (d : nat) (data : value) :
  post (News._filter_data (News.new w (S d)) data) is_str.
Proof.
  destruct (News_new_S w d) as (o & -> & _ & _ & _ & Hformat & _).
  unfold News._filter_data.
  eapply post_bind; [ apply post_getitem | ]. intros articles _.
  eapply post_bind; [ apply total_post, (total_getattr _ _ _ Hformat) | ].
  intros ? <-.
  eapply post_bind; [ apply post_slice_to | ]. intros first10 _.
  eapply post_bind; [ apply post_iterate | ]. intros items _.
  eapply post_bind; [ | intros formatted _; apply post_str_join ].
  apply post_mapM. intros x. cbn [call_attr].
  apply total_post, total_call_safe_run_method1, News_news_format_post.
Qed.

Lemma News_fetch_post (d : nat) (topic : value) :
  tame_world w ->
  post (News._fetch_news w (News.new w (S (S d))) topic)
    (fun v => is_str v \/ is_error_object w v).
Proof.
  intros Hw.
  destruct (News_new_S w (S d)) as (o & -> & _ & _ & Hfilter & _ & Hkey & Hurl).
  unfold News._fetch_news.
  eapply post_bind; [ apply total_post, (total_attr_value _ _ _ Hurl) | ].
  intros ? <-.
  eapply post_bind with (P := anything); [ by intros st | ]. intros day _.
  eapply post_bind; [ apply total_post, (total_attr_value _ _ _ Hkey) | ].
  intros ? <-.
  eapply post_bind; [ apply post_method_format | ]. intros url _.
  eapply post_bind; [ by apply post_requests_get | ].
  intros response [Hjson Hcontent].
  destruct (status_code response =? 200)%Z.
  - eapply post_bind; [ apply total_post, (total_getattr _ _ _ Hfilter) | ].
    intros ? <-.
    eapply post_bind; [ by apply post_lift_tame | ]. intros body _.
    cbn [call_attr].
    apply total_post, total_call_safe_run_method1, News_filter_post.
  - eapply post_bind with (P := anything).
    + apply post_try_except.
      * eapply post_bind; [ by apply post_lift_tame | ]. intros body _.
        apply post_method_get.
      * intros e. eapply post_bind; [ by apply post_lift_tame | ].
        intros text _. by apply post_ret.
    + intros error_message _. by apply post_raise.
Qed.

Lemma News_main_eq (d : nat) (topic : value) (st : State) :
  News.main (News.new w (S (S (S d)))) topic st
  = (data <- call (safe_run w (method1 "_fetch_news" None
                     (News._fetch_news w (News.new w (S (S d)))))) [topic] ;;
     envelope data) st.
Proof.
  destruct (News_new_S w (S (S d))) as (o & -> & _ & Hfetch & _).
  unfold News.main, bind. by rewrite (invoke_eq _ _ _ _ _ Hfetch).
Qed.

Lemma News_main_total (d : nat) (topic : value) :
  tame_world w ->
  total (News.main (News.new w (S (S (S d)))) topic) is_envelope.
Proof.
  intros Hw st. rewrite News_main_eq. revert st.
  eapply total_bind.
  { apply total_call_safe_run_method1. by apply News_fetch_post. }
  intros data [[? | ?] | ?]; apply (total_envelope w); auto.
Qed.


End NewsFacts.

Section GoogleSearchFacts.

Variable w : World.

Lemma GoogleSearch_scrape_post (data : value) :
  tame_world w -> post (GoogleSearch._scrape_webpage w data) is_str.
Proof.
  intros (_ & Hsoup & _). unfold GoogleSearch._scrape_webpage.
  eapply post_bind; [ by apply post_lift_tame | ].
  intros [paragraphs |] _; [ | by apply post_raise ].
  apply post_ret. by eexists.
Qed.

Lemma GoogleSearch_get_webpage_post (d : nat) (link : value) :
  tame_world w ->
  post (GoogleSearch._get_webpage w (GoogleSearch.new w (S d)) link)
    (fun v => is_str v \/ is_error_object w v).
Proof.
  intros Hw.
  destruct (GoogleSearch_new_S w d) as (o & -> & _ & _ & _ & Hscrape & _).
  unfold GoogleSearch._get_webpage.
  eapply post_bind; [ by apply post_requests_get | ].
  intros response [Hjson Hcontent].
  eapply post_bind; [ apply total_post, (total_getattr _ _ _ Hscrape) | ].
  intros ? <-.
  eapply post_bind; [ by apply post_lift_tame | ]. intros text _.
  cbn [call_attr].
  by apply total_post, total_call_safe_run_method1, GoogleSearch_scrape_post.
Qed.

Lemma GoogleSearch_search_post (d : nat) (topic : value) :
  tame_world w ->
  post (GoogleSearch._do_google_search w (GoogleSearch.new w (S (S d))) topic)
    (fun v => is_str v \/ is_error_object w v).
Proof.
  intros Hw.
  destruct (GoogleSearch_new_S w (S d))
    as (o & -> & _ & _ & Hget & _ & Hkey & Hcx).
  unfold GoogleSearch._do_google_search.
  eapply post_bind; [ apply total_post, (total_attr_value _ _ _ Hkey) | ].
  intros ? <-.
  eapply post_bind; [ apply total_post, (total_attr_value _ _ _ Hcx) | ].
  intros ? <-.
  eapply post_bind; [ by apply post_requests_get | ].
  intros response [Hjson Hcontent].
  destruct (status_code response =? 200)%Z.
  - eapply post_bind; [ apply total_post, (total_getattr _ _ _ Hget) | ].
    intros ? <-.
    eapply post_bind with (P := anything).
    { eapply post_bind; [ by apply post_lift_tame | ]. intros ? _. post_tac. }
    intros link _. cbn [call_attr].
    eapply post_weaken.
    + by apply total_post, total_call_safe_run_method1,
        GoogleSearch_get_webpage_post.
    + intros v [[? | ?] | ?]; auto.
  - eapply post_bind; [ by apply post_lift_tame | ]. intros text _.
    by apply post_raise.
Qed.

Lemma GoogleSearch_main_eq (d : nat) (topic : value) (st : State) :
  GoogleSearch.main (GoogleSearch.new w (S (S (S d)))) topic st
  = (data <- call (safe_run w (method1 "_do_google_search" None
                     (GoogleSearch._do_google_search w
                        (GoogleSearch.new w (S (S d)))))) [topic] ;;
     envelope data) st.
Proof.
  destruct (GoogleSearch_new_S w (S (S d))) as (o & -> & _ & Hsearch & _).
  unfold GoogleSearch.main, bind. by rewrite (invoke_eq _ _ _ _ _ Hsearch).
Qed.

Lemma GoogleSearch_main_total (d : nat) (topic : value) :
  tame_world w ->
  total (GoogleSearch.main (GoogleSearch.new w (S (S (S d)))) topic)
    is_envelope.
Proof.
  intros Hw st. rewrite GoogleSearch_main_eq. revert st.
  eapply total_bind.
  { apply total_call_safe_run_method1. by apply GoogleSearch_search_post. }
  intros data [[? | ?] | ?]; apply (total_envelope w); auto.
Qed.


End GoogleSearchFacts.



Section Failures.
Variable w : World.





End Failures.

(** ** Claim C1 *)

(** C1, as amended.  A call of [safe_run(op)] returns what [op] returns when
    [op] returns; when [op] raises an exception that is an instance of
    [Exception], it prints the diagnostic line and returns the error object
    with the fields [success] (false), [error] (the message), [function]
    (the name of [op]) and [trace]; an exception that is not an instance of
    [Exception] (SystemExit, KeyboardInterrupt, GeneratorExit) is raised
    past the wrapper. *)
Theorem safe_run_contains_Exception
    (w : World) (op : callable) (args : list value) (st : State) :
  (forall v st', call op args st = (Ok v, st') ->
     call (safe_run w op) args st = (Ok v, st'))
  /\ (forall e st', call op args st = (Raise e, st') ->
        isinstance_Exception e = true ->
        call (safe_run w op) args st
        = (Ok (VDict [("success", VBool false);
                      ("error", VStr (exc_str e));
                      ("function", VStr (__name__ op));
                      ("trace", VStr (format_exc w e))]),
           mkState (stdout st' ++ [("Error in " ++ __name__ op ++ ": "
                                    ++ exc_str e) ++ newline])
                   (clock st')))
  /\ (forall e st', call op args st = (Raise e, st') ->
        isinstance_Exception e = false ->
        call (safe_run w op) args st = (Raise e, st')).
Proof.
  repeat split; intros * H; rewrite safe_run_call, H; try done.
  - by intros ->.
  - by intros ->.
Qed.

Lemma safe_run_contains_Exception_witness :
  call (safe_run offline builtin_len) [VStr "abc"] initial = (Ok (VInt 3), initial)
  /\ call (safe_run offline divide_by_zero) [] initial
     = (Ok (VDict [("success", VBool false);
                   ("error", VStr "division by zero");
                   ("function", VStr "<lambda>");
                   ("trace", VStr "Traceback (most recent call last): division by zero")]),
        mkState ["Error in <lambda>: division by zero" ++ newline] 0)
  /\ call (safe_run offline sys_exit) [VInt 0] initial
     = (Raise (Exc SystemExit "0"), initial).
Proof.
  split; [ | split ].
  - destruct (safe_run_contains_Exception offline builtin_len [VStr "abc"] initial)
      as (H & _ & _).
    apply H. reflexivity.
  - destruct (safe_run_contains_Exception offline divide_by_zero [] initial)
      as (_ & H & _).
    apply (H (Exc (ExceptionSubclass "ZeroDivisionError") "division by zero")
             initial); reflexivity.
  - destruct (safe_run_contains_Exception offline sys_exit [VInt 0] initial)
      as (_ & _ & H).
    apply H; reflexivity.
Defined.

(** C1 as stated fails: [safe_run(sys.exit)] raises SystemExit past the
    wrapper. *)
Lemma safe_run_lets_SystemExit_through :
  call (safe_run offline sys_exit) [] initial = (Raise (Exc SystemExit "0"), initial).
Proof. reflexivity. Qed.

(** ** Claim C10 *)

(** C10, as amended.  When [ErrorHandler.__init__] runs on an instance,
    every callable attribute whose name does not start with two underscores
    is replaced by its [safe_run]-wrapped form.  For the four subclasses of
    the program (which call it first and then assign data only) the
    constructed instance therefore holds every method of the class, the
    helpers with one leading underscore included, in wrapped form and no
    other callable.  A call of such an attribute never raises an exception
    that is an instance of [Exception]; one that is not (KeyboardInterrupt,
    SystemExit) still propagates. *)
Theorem constructed_methods_wrapped (w : World) :
  (forall (o : object) (name : string) (f : callable),
      String.prefix "__" name = false ->
      o !! name = Some (ACallable f) ->
      ErrorHandler___init__ w o !! name = Some (ACallable (safe_run w f)))
  /\ (forall (c : subclass) (d : nat) (o : object) (name : string),
        new_of w c (S d) = Some o ->
        String.prefix "__" name = false ->
        (forall f, class_of w c (new_of w c d) !! name = Some (ACallable f) ->
           o !! name = Some (ACallable (safe_run w f)))
        /\ (forall a, o !! name = Some a -> is_callable a = true ->
              exists f, class_of w c (new_of w c d) !! name = Some (ACallable f)
                        /\ a = ACallable (safe_run w f)))
  /\ (forall (f : callable) (args : list value) (st st' : State) (e : exc),
        call (safe_run w f) args st = (Raise e, st') ->
        isinstance_Exception e = false).
Proof.
  split; [ | split ].
  - intros o name f Hn Hf. by apply (all_wrapped_init w o name Hn).
  - intros c d o name Hnew Hn. by apply (new_all_wrapped w c d o Hnew).
  - apply safe_run_raises_no_Exception.
Qed.

Lemma constructed_methods_wrapped_witness :
  exists o,
    Weather.new offline 1 = Some o
    /\ o !! "_fetch_weather"
       = Some (ACallable (safe_run offline
                 (method1 "_fetch_weather" None
                    (Weather._fetch_weather offline None))))
    /\ o !! "_format_data"
       = Some (ACallable (safe_run offline
                 (method1 "_format_data" None Weather._format_data))).
Proof.
  destruct (constructed_methods_wrapped offline) as (_ & H & _).
  eexists. split; [ reflexivity | ].
  split.
  - apply (H Weather_ 0 _ "_fetch_weather" eq_refl eq_refl). reflexivity.
  - apply (H Weather_ 0 _ "_format_data" eq_refl eq_refl). reflexivity.
Defined.

(** C10 as stated fails: when the user interrupts the request, the call of
    the wrapped [_fetch_weather] raises KeyboardInterrupt. *)
Lemma wrapped_method_raises_KeyboardInterrupt :
  invoke (Weather.new interrupted 3) "_fetch_weather" [VStr "delhi"] initial
  = (Raise (Exc KeyboardInterrupt EmptyString), mkState [] 1).
Proof. reflexivity. Qed.

(** ** Claims C2, C3 and C9: dispatch *)

(** C9.  A request that has no [input] key at all is dispatched to the
    registered tool with the fallback input: so does the method
    [_call_module], for every registry, and so does the attribute the
    instance of the program holds; in particular the request
    [{tool: get_news}] with fallback [terrorist] is the call of the news
    tool with [terrorist]. *)
Theorem dispatch_without_input_uses_fallback :
  (forall (o : object) (tools : gmap string attr)
          (request : list (string * value)) (name : string)
          (tool_func : attr) (fallback : value) (st : State),
      o !! "TOOLS" = Some (ADict tools) ->
      dict_lookup "tool" request = Some (VStr name) ->
      tools !! name = Some tool_func ->
      dict_lookup "input" request = None ->
      Eve._call_module (Some o) (VDict request) fallback st
      = call_attr tool_func [fallback] st)
  /\ (forall (w : World) (d : nat) (request : list (string * value))
             (name : string) (tool_func : attr) (fallback : value)
             (st : State),
        dict_lookup "tool" request = Some (VStr name) ->
        registry (eve_at w (S (S d))) !! name = Some tool_func ->
        dict_lookup "input" request = None ->
        invoke (eve_at w (S (S d))) "_call_module" [VDict request; fallback] st
        = call_attr tool_func [fallback] st)
  /\ (forall (w : World) (st : State),
        invoke (eve_of w) "_call_module"
          [VDict [("tool", VStr "get_news")]; VStr "terrorist"] st
        = invoke (news_of w) "main" [VStr "terrorist"] st).
Proof.
  split; [ | split ].
  - intros o tools request name tool_func fallback st Htools Hname Hf Hin.
    rewrite (call_module_eq o tools) by done.
    by rewrite Hname, Hf; unfold passed_input; rewrite Hin.
  - intros w d request name tool_func fallback st Hname Hf Hin.
    rewrite registry_eve_at in Hf.
    rewrite (invoke_call_module_eve w d request fallback name) by done.
    by rewrite Hf; unfold passed_input; rewrite Hin.
  - intros w st. unfold eve_of.
    rewrite (invoke_call_module_eve w 2 _ _ "get_news") by reflexivity.
    reflexivity.
Qed.

Lemma dispatch_without_input_uses_fallback_witness :
  invoke (eve_at offline 2) "_call_module"
    [VDict [("tool", VStr "get_search")]; VStr "elon musk"] initial
  = call_attr (google_main offline) [VStr "elon musk"] initial.
Proof.
  destruct dispatch_without_input_uses_fallback as (_ & H & _).
  apply (H offline 0 [("tool", VStr "get_search")] "get_search");
    reflexivity.
Defined.

(** C3, as amended.  For a request whose tool name is a key of the
    registry, dispatch calls the registered tool with the value under the
    key [input] whenever the request has that key, the empty string
    included, and with the fallback input when the request has no such
    key. *)
Theorem dispatch_passes_input_key
    (o : object) (tools : gmap string attr) (request : list (string * value))
    (name : string) (tool_func : attr) (fallback : value) (st : State) :
  o !! "TOOLS" = Some (ADict tools) ->
  dict_lookup "tool" request = Some (VStr name) ->
  tools !! name = Some tool_func ->
  (forall input, dict_lookup "input" request = Some input ->
     Eve._call_module (Some o) (VDict request) fallback st
     = call_attr tool_func [input] st)
  /\ (dict_lookup "input" request = None ->
      Eve._call_module (Some o) (VDict request) fallback st
      = call_attr tool_func [fallback] st).
Proof.
  intros Htools Hname Hf.
  rewrite (call_module_eq o tools) by done. rewrite Hname, Hf.
  unfold passed_input. split.
  - by intros input ->.
  - by intros ->.
Qed.

Lemma dispatch_passes_input_key_witness :
  exists o,
    eve_at echoing 1 = Some o
    /\ Eve._call_module (Some o)
         (VDict [("tool", VStr "get_weather"); ("input", VStr "paris")])
         (VStr EmptyString) initial
       = call_attr (weather_main echoing) [VStr "paris"] initial.
Proof.
  destruct (eve_at_S echoing 0) as (o & Ho & Htools & _).
  exists o. split; [ exact Ho | ].
  apply (dispatch_passes_input_key o (tools_of echoing)
           [("tool", VStr "get_weather"); ("input", VStr "paris")]
           "get_weather" (weather_main echoing) (VStr EmptyString) initial
           Htools eq_refl eq_refl).
  reflexivity.
Defined.

(** C3 as stated fails: with the empty string under [input] and the
    fallback [x], the news tool is called with the empty string (the
    address asked for has [q=]), not with [x]. *)
Lemma dispatch_passes_empty_input :
  invoke (eve_of echoing) "_call_module"
    [VDict [("tool", VStr "get_news"); ("input", VStr EmptyString)]; VStr "x"]
    initial
  = invoke (news_of echoing) "main" [VStr EmptyString] initial
  /\ invoke (eve_of echoing) "_call_module"
       [VDict [("tool", VStr "get_news"); ("input", VStr EmptyString)]; VStr "x"]
       initial
     <> invoke (news_of echoing) "main" [VStr "x"] initial.
Proof.
  split.
  - vm_compute. reflexivity.
  - vm_compute. intros H. discriminate H.
Qed.




(** ** Claims C5 and C7: extraction *)







(** ** Claims C4 and C6: the envelopes *)

Section Envelopes.

Variable w : World.

Lemma main_attr_total (t : tool) (x : value) :
  tame_world w ->
  total (invoke (tool_instance w t) "main" [x]) is_envelope.
Proof.
  intros Hw st.
  assert (H : forall (name : string) (default : option value)
                     (body : value -> M value),
             total (body x) is_envelope ->
             exists a st',
               call (safe_run w (method1 name default body)) [x] st = (Ok a, st')
               /\ is_envelope a).
  { intros name default body Hbody.
    rewrite safe_run_call, call_method1.
    destruct (Hbody st) as (a & st' & -> & Ha). by exists a, st'. }
  destruct t; cbn [tool_instance].
  - rewrite (proj1 (invoke_main w x st)). apply H.
    by apply Weather_main_total.
  - rewrite (proj1 (proj2 (invoke_main w x st))). apply H.
    by apply News_main_total.
  - rewrite (proj2 (proj2 (invoke_main w x st))). apply H.
    by apply GoogleSearch_main_total.
Qed.


End Envelopes.



Section DispatchEnvelope.

Variable w : World.

Lemma Weather_main_Ok (self : instance) (x v : value) (st st' : State) :
  Weather.main self x st = (Ok v, st') -> has_boolean_success v.
Proof.
  unfold Weather.main.
  intros (? & ? & _ & (? & ? & _ & (? & ? & _ & H)%bind_Ok_inv)%bind_Ok_inv)
    %bind_Ok_inv.
  by apply envelope_Ok_inv in H.
Qed.

Lemma News_main_Ok (self : instance) (x v : value) (st st' : State) :
  News.main self x st = (Ok v, st') -> has_boolean_success v.
Proof.
  unfold News.main. intros (? & ? & _ & H)%bind_Ok_inv.
  by apply envelope_Ok_inv in H.
Qed.

Lemma GoogleSearch_main_Ok (self : instance) (x v : value) (st st' : State) :
  GoogleSearch.main self x st = (Ok v, st') -> has_boolean_success v.
Proof.
  unfold GoogleSearch.main. intros (? & ? & _ & H)%bind_Ok_inv.
  by apply envelope_Ok_inv in H.
Qed.

Lemma wrapped_main_Ok (name : string) (default : value)
    (main : value -> M value) (args : list value) (v : value)
    (st st' : State) :
  (forall x v st st', main x st = (Ok v, st') -> has_boolean_success v) ->
  call (safe_run w (method1 name (Some default) main)) args st = (Ok v, st') ->
  has_boolean_success v.
Proof.
  intros Hmain. rewrite safe_run_call.
  destruct (call (method1 name (Some default) main) args st)
    as [[v' | e |] st1] eqn:E.
  - intros [= <- <-]. destruct args as [| x [| y args]]; cbn in E.
    + by apply Hmain in E.
    + by apply Hmain in E.
    + discriminate E.
  - destruct (isinstance_Exception e); [ | done ].
    intros [= <- _]. apply error_data_has_success.
  - done.
Qed.

Lemma tool_Ok (name : string) (tool_func : attr) (args : list value)
    (v : value) (st st' : State) :
  tools_of w !! name = Some tool_func ->
  call_attr tool_func args st = (Ok v, st') -> has_boolean_success v.
Proof.
  rewrite tools_of_lookup.
  repeat case_decide; intros [= <-]; cbn [call_attr weather_main news_main
                                            google_main];
    apply wrapped_main_Ok.
  - apply Weather_main_Ok.
  - apply News_main_Ok.
  - apply GoogleSearch_main_Ok.
Qed.

Lemma unknown_function_has_success : has_boolean_success unknown_function.
Proof. by eexists _, _. Qed.

Lemma call_module_Ok (d : nat) (request fallback v : value) (st st' : State) :
  Eve._call_module (eve_at w (S d)) request fallback st = (Ok v, st') ->
  has_boolean_success v.
Proof.
  destruct request as [| b | n | y | s | l | request];
    try solve [ unfold Eve._call_module;
                intros (? & ? & [=] & _)%bind_Ok_inv ].
  destruct (dict_lookup "tool" request) as [name |] eqn:Hname.
  - destruct name as [| b | n | y | name | l | l].
    5: { rewrite (call_module_eve w d request fallback name) by done.
         destruct (tools_of w !! name) as [tool_func |] eqn:E.
         - exact (tool_Ok name tool_func _ v st st' E).
         - intros [= <- _]. apply unknown_function_has_success. }
    all: destruct (eve_at_S w d) as (o & -> & Htools & _);
      rewrite (call_module_eq o _ _ _ _ Htools), Hname;
      first [ discriminate
            | intros [= <- _]; apply unknown_function_has_success ].
  - destruct (eve_at_S w d) as (o & -> & Htools & _).
    rewrite (call_module_eq o _ _ _ _ Htools), Hname.
    intros [= <- _]. apply unknown_function_has_success.
Qed.

Lemma post_registry_find (tools : gmap string attr) (key : value) :
  post (registry_find (ADict tools) key)
    (fun found => forall f, found = Some f ->
                            exists name, tools !! name = Some f).
Proof.
  intros st. destruct key as [| b | n | y | name | l | l]; cbn; try done.
  intros f Hf. by exists name.
Qed.

Lemma tool_total (name : string) (tool_func : attr) (input : value) :
  tame_world w ->
  tools_of w !! name = Some tool_func ->
  total (call_attr tool_func [input]) is_envelope.
Proof.
  intros Hw. rewrite tools_of_lookup.
  repeat case_decide; intros [= <-].
  - intros st. rewrite <- (proj1 (invoke_main w input st)).
    apply (main_attr_total w weather_tool input Hw).
  - intros st. rewrite <- (proj1 (proj2 (invoke_main w input st))).
    apply (main_attr_total w news_tool input Hw).
  - intros st. rewrite <- (proj2 (proj2 (invoke_main w input st))).
    apply (main_attr_total w search_tool input Hw).
Qed.

Lemma call_module_post (d : nat) (request fallback : value) :
  tame_world w ->
  post (Eve._call_module (eve_at w (S d)) request fallback) anything.
Proof.
  intros Hw. destruct (eve_at_S w d) as (o & -> & Htools & _).
  unfold Eve._call_module.
  eapply post_bind; [ apply post_method_get | ]. intros tool_name _.
  eapply post_bind; [ apply post_method_get | ]. intros input_value _.
  eapply post_bind; [ apply total_post, (total_getattr _ _ _ Htools) | ].
  intros ? <-.
  eapply post_bind; [ apply post_registry_find | ]. intros [found |] _;
    [ | by apply post_ret ].
  eapply post_bind; [ apply total_post, (total_getattr _ _ _ Htools) | ].
  intros ? <-.
  eapply post_bind; [ apply post_registry_find | ].
  intros [tool_func |] Hfound; [ | by apply post_raise ].
  destruct (Hfound tool_func eq_refl) as [name Hname].
  eapply post_bind; [ apply total_post, (tool_total name); done | ].
  intros response _. by apply post_ret.
Qed.

End DispatchEnvelope.

(** C4.  Whatever the request and the fallback input, a value that
    dispatch returns is a dict with a boolean under [success]: so for the
    method [_call_module] and for the attribute of the instance (the method
    in its wrapper), whether the tool returned its envelope, a failure was
    caught, or the tool name is unknown.  In a world that raises instances
    of [Exception] only, the attribute always returns. *)
Theorem dispatch_result_has_success
    (w : World) (d : nat) (request fallback : value) (st : State) :
  (forall v st',
      Eve._call_module (eve_at w (S d)) request fallback st = (Ok v, st') ->
      has_boolean_success v)
  /\ (forall v st',
        invoke (eve_at w (S (S d))) "_call_module" [request; fallback] st
        = (Ok v, st') ->
        has_boolean_success v)
  /\ (tame_world w ->
      exists v st',
        invoke (eve_at w (S (S d))) "_call_module" [request; fallback] st
        = (Ok v, st')).
Proof.
  split; [ | split ].
  - intros v st'. apply call_module_Ok.
  - intros v st'. rewrite invoke_call_module.
    destruct (Eve._call_module (eve_at w (S d)) request fallback st)
      as [[v' | e |] st1] eqn:E.
    + intros [= <- <-]. by apply call_module_Ok in E.
    + destruct (isinstance_Exception e); [ | done ].
      intros [= <- _]. apply error_data_has_success.
    + done.
  - intros Hw. rewrite invoke_call_module.
    pose proof (call_module_post w d request fallback Hw st) as H.
    destruct (Eve._call_module (eve_at w (S d)) request fallback st)
      as [[v' | e |] st1]; [ by eexists _, _ | | done ].
    rewrite H. by eexists _, _.
Qed.

Lemma dispatch_result_has_success_witness :
  exists v st',
    invoke (eve_at echoing 4) "_call_module"
      [VDict [("tool", VStr "get_weather"); ("input", VStr "paris")];
       VStr EmptyString] initial
    = (Ok v, st')
    /\ has_boolean_success v.
Proof.
  destruct (dispatch_result_has_success echoing 2
              (VDict [("tool", VStr "get_weather"); ("input", VStr "paris")])
              (VStr EmptyString) initial) as (_ & H & _).
  eexists _, _. split.
  - vm_compute. reflexivity.
  - eapply H. vm_compute. reflexivity.
Defined.

(** ** The loop of [run] *)

Lemma mapM_print_no_end (tokens : list string) (st : State) :
  exists written,
    mapM print_no_end tokens st = (Ok written, echoed tokens st).
Proof.
  revert st. induction tokens as [| t tokens IH]; intros st.
  - exists []. unfold echoed. cbn. rewrite app_nil_r. by destruct st.
  - cbn [mapM]. unfold bind at 1. unfold print_no_end at 1, write.
    destruct (IH (mkState (stdout st ++ [t]) (clock st))) as [written H].
    unfold bind at 1. rewrite H. eexists. unfold ret, echoed. cbn.
    by rewrite <- app_assoc.
Qed.

Lemma echo_eq (tokens : list string) (error : option exc) (st : State) :
  Eve.echo (tokens, error) st
  = (match error with
     | Some e => Raise e
     | None => Ok (String.concat EmptyString tokens)
     end, echoed tokens st).
Proof.
  unfold Eve.echo. cbn [fst snd]. unfold bind.
  destruct (mapM_print_no_end tokens st) as [written ->].
  by destruct error.
Qed.

Section Loop.

Variable w : World.
Variable k : nat.

Lemma run_loop_break (rest : list string) (st : State) :
  Eve.run_loop w (eve_at w (S k)) ("break" :: rest) st = (Ok VNone, prompted st).
Proof. reflexivity. Qed.

Lemma run_loop_eof (st : State) :
  Eve.run_loop w (eve_at w (S k)) [] st
  = (Raise (Exc EOFError "EOF when reading a line"), prompted st).
Proof. reflexivity. Qed.

Lemma run_loop_turn (user_input : string) (rest : list string) (st : State) :
  user_input <> "break" ->
  Eve.run_loop w (eve_at w (S k)) (user_input :: rest) st
  = (let response :=
       ollama_chat w (clock (prompted st)) (getenv w "MODEL")
         (routing_messages w user_input) in
     match response.2 with
     | Some e => (Raise e, echoed response.1 (asked (prompted st)))
     | None =>
         match call (safe_run w (extract_json_method w (eve_at w k)))
                 [VStr (String.concat EmptyString response.1); VStr user_input]
                 (replied response.1 st) with
         | (Ok _, st') => Eve.run_loop w (eve_at w (S k)) rest st'
         | (Raise e, st') => (Raise e, st')
         | (Undetermined, st') => (Undetermined, st')
         end
     end).
Proof.
  intros Hbreak.
  destruct (eve_at_S w k)
    as (o & Ho & _ & Hmodel & Hprompt & _ & _ & _ & Hextract & _).
  cbn [Eve.run_loop]. rewrite Ho.
  apply String.eqb_neq in Hbreak. rewrite Hbreak.
  unfold bind at 1 2. unfold print at 1, write at 1 2. cbv beta iota.
  unfold bind at 1. rewrite (attr_value_eq _ _ _ _ Hmodel).
  unfold bind at 1. rewrite (attr_value_eq _ _ _ _ Hprompt).
  unfold bind at 1. unfold Eve.ollama_chat_stream at 1. cbv beta iota.
  fold (routing_messages w user_input).
  cbv zeta. change (clock (prompted st)) with (clock st). cbn [clock stdout].
  destruct (ollama_chat w (clock st) (getenv w "MODEL")
              (routing_messages w user_input)) as [tokens error].
  unfold bind at 1. rewrite echo_eq. cbn [fst snd].
  destruct error as [e |]; [ reflexivity | ].
  unfold bind at 1. unfold print at 1, write at 1. cbv beta iota.
  unfold bind at 1. rewrite (invoke_eq _ _ _ _ _ Hextract).
  reflexivity.
Qed.

Lemma invoke_run (st : State) :
  invoke (eve_at w (S (S k))) "run" [] st
  = call (safe_run w (run_method w (eve_at w (S k)))) [] st.
Proof.
  destruct (eve_at_S w (S k)) as (o & -> & _ & _ & _ & _ & _ & _ & _ & H).
  by rewrite (invoke_eq _ _ _ _ _ H).
Qed.

End Loop.

(** ** Claim C8: the loop *)

(** C8, as amended.  The loop of [run] ends when the user enters [break],
    and then [run] returns.  It also ends when a step of the loop itself
    raises: [input] at the end of the input, or the call of the model or
    its stream of tokens; the exception leaves the loop and is caught by
    the wrapper around [run], which returns the error object, so [run]
    returns as well.  A failure inside [_extract_json] does not end the
    loop: whether the method returns or raises an instance of
    [Exception], which its wrapper catches, the loop goes on with the next
    line. *)
Theorem run_loop_ends_on_break_or_own_failure (w : World) (k : nat) :
  (forall rest st,
      Eve.run_loop w (eve_at w (S k)) ("break" :: rest) st
      = (Ok VNone, prompted st))
  /\ (forall st,
        Eve.run_loop w (eve_at w (S k)) [] st
        = (Raise (Exc EOFError "EOF when reading a line"), prompted st))
  /\ (forall user_input rest st tokens e,
        user_input <> "break" ->
        ollama_chat w (clock st) (getenv w "MODEL")
          (routing_messages w user_input) = (tokens, Some e) ->
        Eve.run_loop w (eve_at w (S k)) (user_input :: rest) st
        = (Raise e, echoed tokens (asked (prompted st))))
  /\ (forall user_input rest st tokens,
        user_input <> "break" ->
        ollama_chat w (clock st) (getenv w "MODEL")
          (routing_messages w user_input) = (tokens, None) ->
        (forall v st',
            Eve._extract_json w (eve_at w k)
              (VStr (String.concat EmptyString tokens)) (VStr user_input)
              (replied tokens st) = (Ok v, st') ->
            Eve.run_loop w (eve_at w (S k)) (user_input :: rest) st
            = Eve.run_loop w (eve_at w (S k)) rest st')
        /\ (forall e st',
              Eve._extract_json w (eve_at w k)
                (VStr (String.concat EmptyString tokens)) (VStr user_input)
                (replied tokens st) = (Raise e, st') ->
              isinstance_Exception e = true ->
              Eve.run_loop w (eve_at w (S k)) (user_input :: rest) st
              = Eve.run_loop w (eve_at w (S k)) rest
                  (logged (extract_json_method w (eve_at w k)) e st')))
  /\ (forall st v st',
        Eve.run w (eve_at w (S k)) st = (Ok v, st') ->
        invoke (eve_at w (S (S k))) "run" [] st = (Ok v, st'))
  /\ (forall st e st',
        Eve.run w (eve_at w (S k)) st = (Raise e, st') ->
        isinstance_Exception e = true ->
        invoke (eve_at w (S (S k))) "run" [] st
        = (Ok (VDict [("success", VBool false);
                      ("error", VStr (exc_str e));
                      ("function", VStr "run");
                      ("trace", VStr (format_exc w e))]),
           mkState (stdout st' ++ [("Error in run: " ++ exc_str e) ++ newline])
                   (clock st'))).
Proof.
  split; [ apply run_loop_break | ].
  split; [ apply run_loop_eof | ].
  split; [ | split; [ | split ] ].
  - intros user_input rest st tokens e Hbreak Hchat.
    rewrite run_loop_turn by done. cbv zeta.
    change (clock (prompted st)) with (clock st). by rewrite Hchat.
  - intros user_input rest st tokens Hbreak Hchat.
    assert (Hturn := run_loop_turn w k user_input rest st Hbreak).
    cbv zeta in Hturn. change (clock (prompted st)) with (clock st) in Hturn.
    rewrite Hchat in Hturn. cbn [fst snd] in Hturn.
    rewrite safe_run_call in Hturn. unfold extract_json_method in Hturn at 1.
    cbn [call method2] in Hturn.
    split.
    + intros v st' Hbody. by rewrite Hturn, Hbody.
    + intros e st' Hbody He. by rewrite Hturn, Hbody, He.
  - intros st v st' Hrun. rewrite invoke_run, safe_run_call.
    unfold run_method. cbn [call method0]. by rewrite Hrun.
  - intros st e st' Hrun He. rewrite invoke_run, safe_run_call.
    unfold run_method. cbn [call method0]. by rewrite Hrun, He.
Qed.

Lemma run_loop_ends_on_break_or_own_failure_witness :
  Eve.run_loop offline (eve_at offline 1) ["hello"; "break"] initial
  = (Raise connection_error, echoed [] (asked (prompted initial)))
  /\ invoke (eve_of confused) "run" [] initial
     = (Ok VNone,
        mkState [newline; "Chat with Eve :-";
                 "Let me look: "; dq "{'tool':'get_weather',}"; " one moment.";
                 newline ++ newline;
                 "Error in _extract_json: Expecting value" ++ newline;
                 newline; "Chat with Eve :-"] 1).
Proof.
  destruct (run_loop_ends_on_break_or_own_failure offline 0)
    as (_ & _ & H & _).
  split.
  - apply (H "hello" ["break"] initial []); [ discriminate | reflexivity ].
  - vm_compute. reflexivity.
Defined.

(** C8 as stated fails: nobody enters [break], the call of the model fails
    in the first turn, and [run] returns: the loop has ended after one
    prompt, the second line is never read. *)
Lemma loop_ends_without_break :
  ~ In "break" (stdin offline)
  /\ invoke (eve_of offline) "run" [] initial
     = (Ok (VDict [("success", VBool false);
                   ("error", VStr "Connection refused");
                   ("function", VStr "run");
                   ("trace",
                    VStr "Traceback (most recent call last): Connection refused")]),
        mkState [newline; "Chat with Eve :-";
                 "Error in run: Connection refused" ++ newline] 1).
Proof.
  split.
  - cbn. intros [H | [H | []]]; discriminate H.
  - vm_compute. reflexivity.
Qed.


(** * Further properties of the code *)

(** ** handler.py *)

Lemma safe_run_safe_run
    (w : World) (func : callable) (args : list value) (st : State) :
  call (safe_run w (safe_run w func)) args st = call (safe_run w func) args st.
Proof.
  rewrite (safe_run_call w (safe_run w func)).
  destruct (call (safe_run w func) args st) as [[v | e |] st'] eqn:E;
    try reflexivity.
  by rewrite (safe_run_raises_no_Exception w _ _ _ _ _ E).
Qed.

(** A function wrapped twice behaves as the function wrapped once: the
    outer wrapper never sees an instance of [Exception], so it neither
    prints nor builds an error object of its own. *)
Theorem safe_run_twice
    (w : World) (func : callable) (args : list value) (st : State) :
  call (safe_run w (safe_run w func)) args st = call (safe_run w func) args st.
Proof. apply safe_run_safe_run. Qed.

(** [_wrap_modules] neither adds nor removes an attribute, and it leaves
    alone every attribute that is not callable and every attribute whose
    name starts with two underscores. *)
Theorem wrap_modules_keeps_the_rest (w : World) (o : object) :
  dom (_wrap_modules w o) = dom o
  /\ (forall name a,
        o !! name = Some a ->
        is_callable a = false \/ String.prefix "__" name = true ->
        _wrap_modules w o !! name = Some a).
Proof.
  split.
  - apply set_eq. intros name. rewrite !elem_of_dom, wrap_modules_lookup.
    by rewrite fmap_is_Some.
  - intros name a Ha Hkeep. rewrite wrap_modules_lookup, Ha. cbn.
    unfold wrapped_attr. destruct Hkeep as [Hdata | ->]; [ | done ].
    destruct (String.prefix "__" name); [ done | ].
    by destruct a.
Qed.

Lemma wrap_modules_keeps_the_rest_witness :
  _wrap_modules offline (Weather.class offline None) !! "__module__"
  = Some (AValue (VStr "__main__")).
Proof.
  destruct (wrap_modules_keeps_the_rest offline (Weather.class offline None))
    as (_ & H).
  apply H; [ reflexivity | by right ].
Defined.

(** Running [_wrap_modules] a second time on an instance wraps its methods
    once more, and changes the behaviour of no attribute. *)
Theorem wrap_modules_twice
    (w : World) (o : object) (name : string) (once twice : attr)
    (args : list value) (st : State) :
  _wrap_modules w o !! name = Some once ->
  _wrap_modules w (_wrap_modules w o) !! name = Some twice ->
  call_attr twice args st = call_attr once args st.
Proof.
  intros Honce Htwice.
  rewrite (wrap_modules_lookup w (_wrap_modules w o)), Honce in Htwice.
  injection Htwice as <-.
  rewrite wrap_modules_lookup in Honce.
  unfold wrapped_attr in *.
  destruct (String.prefix "__" name); [ done | ].
  destruct (o !! name) as [[v | g | d] |]; cbn in Honce;
    [ injection Honce as <- .. | discriminate Honce ]; try done.
  cbn [call_attr]. apply safe_run_safe_run.
Qed.

Lemma wrap_modules_twice_witness :
  call_attr
    (ACallable (safe_run offline (safe_run offline
       (method1 "_format_data" None Weather._format_data))))
    [VDict []] initial
  = call_attr
      (ACallable (safe_run offline
         (method1 "_format_data" None Weather._format_data)))
      [VDict []] initial.
Proof.
  apply (wrap_modules_twice offline (Weather.class offline None)
           "_format_data").
  - rewrite wrap_modules_lookup. reflexivity.
  - rewrite !wrap_modules_lookup. reflexivity.
Defined.

(** ** class Weather *)

Lemma Weather_fetch_request (w : World) (x : value) (st : State) :
  exists url,
    Weather._fetch_weather w (Weather.new w 1) x st
    = (data <- external (fun t => requests_get w t url) ;;
       if (status_code data =? 200)%Z then lift (json data)
       else
         body <- lift (json data) ;;
         error <- getitem body "error" ;;
         raise (Exc RuntimeError
                  ("Weather Module doesn't work with status code "
                   ++ pretty (status_code data) ++ " and content "
                   ++ str_ error))) st.
Proof.
  destruct (Weather_new_S w 0) as (o & -> & _ & _ & _ & Hkey & Hurl).
  unfold Weather._fetch_weather.
  unfold bind at 1. rewrite (attr_value_eq _ _ _ _ Hurl).
  unfold bind at 1. rewrite (attr_value_eq _ _ _ _ Hkey).
  eexists. reflexivity.
Qed.

Lemma invoke_weather_main (w : World) (x : value) (st : State) :
  invoke (weather_of w) "main" [x] st
  = match
      (fetched <- call (safe_run w (method1 "_fetch_weather" None
                          (Weather._fetch_weather w (Weather.new w 1)))) [x] ;;
       data <- call (safe_run w (method1 "_format_data" None
                       Weather._format_data)) [fetched] ;;
       envelope data) st
    with
    | (Raise e, st') =>
        if isinstance_Exception e
        then (Ok (error_data w (method1 "main" (Some (VStr "india"))
                                 (Weather.main (Weather.new w 2))) e),
              logged (method1 "main" (Some (VStr "india"))
                        (Weather.main (Weather.new w 2))) e st')
        else (Raise e, st')
    | r => r
    end.
Proof.
  rewrite (proj1 (invoke_main w x st)). unfold weather_main.
  cbn [call_attr]. rewrite safe_run_call, call_method1, Weather_main_eq.
  by destruct ((_ <- _ ;; _) st) as [[v | e |] st'].
Qed.

(** When the fetch of the weather tool raises, whatever the exception says,
    the envelope that [main] returns carries the message ['location']: the
    error object of [_fetch_weather] is handed to [_format_data], which
    fails on its first subscript, and it is that failure [main] reports.
    Both failures are logged. *)
Theorem weather_failure_reports_location
    (w : World) (x : value) (st st1 : State) (e : exc) :
  Weather._fetch_weather w (Weather.new w 1) x st = (Raise e, st1) ->
  isinstance_Exception e = true ->
  invoke (weather_of w) "main" [x] st
  = (Ok (VDict [("success", VBool false); ("data", VStr "'location'")]),
     mkState ((stdout st1
               ++ [("Error in _fetch_weather: " ++ exc_str e) ++ newline])
              ++ [("Error in _format_data: 'location'") ++ newline])
             (clock st1)).
Proof.
  intros Hfetch He. rewrite invoke_weather_main.
  unfold bind at 1. rewrite safe_run_call, call_method1, Hfetch, He.
  unfold bind at 1. rewrite safe_run_call, call_method1.
  reflexivity.
Qed.

Lemma weather_failure_reports_location_witness :
  invoke (weather_of offline) "main" [VStr "chandigarh"] initial
  = (Ok (VDict [("success", VBool false); ("data", VStr "'location'")]),
     mkState ["Error in _fetch_weather: Connection refused" ++ newline;
              "Error in _format_data: 'location'" ++ newline] 1).
Proof.
  apply (weather_failure_reports_location offline (VStr "chandigarh") initial
           (mkState [] 1) connection_error); reflexivity.
Defined.

(** When the request is answered with status 200 and a body that
    [_format_data] can format, [main] returns the sentence in an envelope
    with [success] true, and nothing is logged. *)
Theorem weather_success
    (w : World) (x body v : value) (r : Response) (st st' : State) :
  (forall url, requests_get w (clock st) url = Ok r) ->
  status_code r = 200%Z ->
  json r = Ok body ->
  Weather._format_data body (asked st) = (Ok v, st') ->
  invoke (weather_of w) "main" [x] st
  = (Ok (VDict [("success", VBool true); ("data", v)]), st').
Proof.
  intros Hget Hcode Hjson Hformat. rewrite invoke_weather_main.
  unfold bind at 1. rewrite safe_run_call, call_method1.
  destruct (Weather_fetch_request w x st) as [url ->].
  unfold bind at 1, external. rewrite Hget.
  apply Z.eqb_eq in Hcode. rewrite Hcode. unfold lift. rewrite Hjson.
  unfold bind at 1. rewrite safe_run_call, call_method1.
  fold (asked st). rewrite Hformat.
  pose proof (Weather_format_data_post body (asked st)) as Hstr.
  rewrite Hformat in Hstr. destruct Hstr as [s ->]. reflexivity.
Qed.

Lemma weather_success_witness :
  invoke (weather_of sunny) "main" [VStr "delhi"] initial
  = (Ok (VDict [("success", VBool true);
                ("data", VStr "Currently, it's sunny in Delhi with 31.0°C (feels like 33.4°C) and humidity at 40%. Today's forecast: partly cloudy, highs of 35.1°C and lows of 24.0°C. Chance of rain is 0%.")]),
     mkState [] 1).
Proof.
  apply (weather_success sunny (VStr "delhi") delhi_weather _
           (mkResponse 200 (Ok delhi_weather) (Ok EmptyString)) initial);
    reflexivity.
Defined.

(** ** class News *)

Lemma News_fetch_request (w : World) (topic : value) (st : State) :
  exists url,
    News._fetch_news w (News.new w 2) topic st
    = (response <- external (fun t => requests_get w t url) ;;
       if (status_code response =? 200)%Z then
         filter_data <- getattr (News.new w 2) "_filter_data" ;;
         body <- lift (json response) ;;
         call_attr filter_data [body]
       else
         error_message <-
           try_except
             (body <- lift (json response) ;;
              method_get body "message" (VStr "No message provided"))
             (fun _ => text <- lift (content_decode response) ;;
                       ret (VStr text)) ;;
         raise (Exc RuntimeError
                  ("News API Error:" ++ newline
                   ++ "Topic: '" ++ str_ topic ++ "'" ++ newline
                   ++ "Status Code: " ++ pretty (status_code response)
                   ++ newline ++ "Message: " ++ str_ error_message))) st.
Proof.
  destruct (News_new_S w 1) as (o & -> & _ & _ & _ & _ & Hkey & Hurl).
  unfold News._fetch_news.
  unfold bind at 1. rewrite (attr_value_eq _ _ _ _ Hurl).
  unfold bind at 1. cbv beta iota.
  unfold bind at 1. rewrite (attr_value_eq _ _ _ _ Hkey).
  eexists. reflexivity.
Qed.

Lemma envelope_returns (data : value) (st : State) :
  exists v, envelope data st = (Ok v, st).
Proof.
  unfold envelope. destruct (is_failure data) eqn:E; [ | by eexists ].
  destruct data; try discriminate E. by eexists.
Qed.

Lemma invoke_news_main (w : World) (topic : value) (st : State) :
  invoke (news_of w) "main" [topic] st
  = match News._fetch_news w (News.new w 2) topic st with
    | (Ok data, st') => envelope data st'
    | (Raise e, st') =>
        if isinstance_Exception e
        then (Ok (output_json false (VStr (exc_str e))),
              logged (method1 "_fetch_news" None
                        (News._fetch_news w (News.new w 2))) e st')
        else (Raise e, st')
    | (Undetermined, st') => (Undetermined, st')
    end.
Proof.
  rewrite (proj1 (proj2 (invoke_main w topic st))). unfold news_main.
  cbn [call_attr]. rewrite safe_run_call, call_method1, News_main_eq.
  unfold bind at 1. rewrite safe_run_call, call_method1.
  destruct (News._fetch_news w (News.new w 2) topic st)
    as [[data | e |] st']; [ | | done ].
  - by destruct (envelope_returns data st') as [v ->].
  - destruct (isinstance_Exception e) eqn:E; [ done | ].
    cbv beta iota. by rewrite E.
Qed.

(** The message of the news tool for an answer with a status other than
    200: the topic, the status code, and the [message] of the JSON body (or
    [No message provided] when the body has none); when the body is not
    JSON, the text of the answer instead. *)
Theorem news_bad_status_message
    (w : World) (topic : value) (r : Response) (st : State) :
  (forall url, requests_get w (clock st) url = Ok r) ->
  status_code r <> 200%Z ->
  (forall d,
      json r = Ok (VDict d) ->
      exists st',
        invoke (news_of w) "main" [topic] st
        = (Ok (VDict [("success", VBool false);
                      ("data", VStr
                         ("News API Error:" ++ newline
                          ++ "Topic: '" ++ str_ topic ++ "'" ++ newline
                          ++ "Status Code: " ++ pretty (status_code r)
                          ++ newline ++ "Message: "
                          ++ str_ (from_option id (VStr "No message provided")
                                     (dict_lookup "message" d))))]),
           st'))
  /\ (forall e text,
        json r = Raise e -> isinstance_Exception e = true ->
        content_decode r = Ok text ->
        exists st',
          invoke (news_of w) "main" [topic] st
          = (Ok (VDict [("success", VBool false);
                        ("data", VStr
                           ("News API Error:" ++ newline
                            ++ "Topic: '" ++ str_ topic ++ "'" ++ newline
                            ++ "Status Code: " ++ pretty (status_code r)
                            ++ newline ++ "Message: " ++ text))]),
             st')).
Proof.
  intros Hget Hcode. apply Z.eqb_neq in Hcode.
  destruct (News_fetch_request w topic st) as [url Hfetch].
  unfold bind at 1, external in Hfetch. rewrite Hget in Hfetch.
  cbv beta iota in Hfetch. rewrite Hcode in Hfetch.
  unfold bind at 1, try_except, lift in Hfetch.
  split.
  - intros d Hjson. rewrite invoke_news_main, Hfetch.
    unfold bind at 1. rewrite Hjson.
    cbn [method_get ret raise]. cbv beta iota. by eexists.
  - intros e text Hjson He Htext. rewrite invoke_news_main, Hfetch.
    unfold bind at 1. rewrite Hjson, He. unfold bind at 1. rewrite Htext.
    cbn [ret raise]. cbv beta iota. by eexists.
Qed.

Lemma news_bad_status_message_witness :
  exists st',
    invoke (news_of rate_limited) "main" [VStr "terrorist"] initial
    = (Ok (VDict [("success", VBool false);
                  ("data", VStr
                     ("News API Error:" ++ newline
                      ++ "Topic: 'terrorist'" ++ newline
                      ++ "Status Code: 429" ++ newline
                      ++ "Message: You have made too many requests"))]),
       st').
Proof.
  destruct (news_bad_status_message rate_limited (VStr "terrorist")
              (mkResponse 429
                 (Ok (VDict [("status", VStr "error");
                             ("message", VStr "You have made too many requests")]))
                 (Ok EmptyString)) initial) as (H & _);
    [ reflexivity | discriminate | ].
  apply (H _ eq_refl).
Defined.

(** ** class Eve *)

Lemma dispatch_of_odd_tool_names_helper
    (w : World) (d : nat) (request : list (string * value))
    (fallback : value) (st : State) :
  unhashable_tool request = true ->
  exists kind,
    invoke (eve_at w (S (S d))) "_call_module" [VDict request; fallback] st
    = (Ok (error_data w
             (method2 "_call_module" (Some (VStr EmptyString))
                (Eve._call_module (eve_at w (S d))))
             (Exc TypeError ("unhashable type: '" ++ kind ++ "'"))),
       logged (method2 "_call_module" (Some (VStr EmptyString))
                 (Eve._call_module (eve_at w (S d))))
         (Exc TypeError ("unhashable type: '" ++ kind ++ "'")) st).
Proof.
  destruct (eve_at_S w d) as (o & Ho & Htools & _).
  rewrite invoke_call_module, Ho, (call_module_eq o _ _ _ _ Htools).
  clear Ho Htools. unfold unhashable_tool.
  destruct (dict_lookup "tool" request) as [[| b | n | x | name | l | l] |];
    intros H; try discriminate H.
  - exists "list". reflexivity.
  - exists "dict". reflexivity.
Qed.

(** A request that names no tool (no [tool] key, or null, a boolean or a
    number under it) gets the unknown-function envelope and nothing else
    happens.  A request with a list or an object under [tool] makes the
    membership test raise TypeError; the wrapper around [_call_module]
    returns its error object, which has no [data] key. *)
Theorem dispatch_of_odd_tool_names
    (w : World) (d : nat) (request : list (string * value))
    (fallback : value) (st : State) :
  (names_no_tool request = true ->
   invoke (eve_at w (S (S d))) "_call_module" [VDict request; fallback] st
   = (Ok unknown_function, st))
  /\ (unhashable_tool request = true ->
      exists kind,
        invoke (eve_at w (S (S d))) "_call_module" [VDict request; fallback] st
        = (Ok (VDict [("success", VBool false);
                      ("error", VStr ("unhashable type: '" ++ kind ++ "'"));
                      ("function", VStr "_call_module");
                      ("trace", VStr (format_exc w
                         (Exc TypeError ("unhashable type: '" ++ kind ++ "'"))))]),
           mkState (stdout st
                    ++ [("Error in _call_module: unhashable type: '"
                         ++ kind ++ "'") ++ newline])
                   (clock st))).
Proof.
  destruct (eve_at_S w d) as (o & Ho & Htools & _).
  rewrite invoke_call_module, Ho, (call_module_eq o _ _ _ _ Htools).
  clear Ho Htools. unfold names_no_tool, unhashable_tool.
  destruct (dict_lookup "tool" request) as [[| b | n | x | name | l | l] |];
    split; intros H; try discriminate H; try reflexivity.
  - exists "list". reflexivity.
  - exists "dict". reflexivity.
Qed.

Lemma dispatch_of_odd_tool_names_witness :
  invoke (eve_at offline 2) "_call_module"
    [VDict [("input", VStr "delhi")]; VStr "weather in delhi"] initial
  = (Ok unknown_function, initial).
Proof.
  destruct (dispatch_of_odd_tool_names offline 0 [("input", VStr "delhi")]
              (VStr "weather in delhi") initial) as (H & _).
  apply H. reflexivity.
Defined.

(** When the tool call found in the text has a list or an object under
    [tool], [_extract_json] fails with KeyError ['data']: dispatch has
    returned an error object, which has [success] and no [data].  No tool
    and no model is called, so the user gets no reply for that turn. *)
Theorem extraction_fails_without_data
    (w : World) (d : nat) (text group rest : string)
    (request : list (string * value)) (user_text : value) (st : State) :
  re.search pattern text = Some group ->
  json.decode group = json.Parsed (VDict request) rest ->
  unhashable_tool request = true ->
  exists st',
    Eve._extract_json w (eve_at w (S (S d))) (VStr text) user_text st
    = (Raise (Exc KeyError "'data'"), st')
    /\ clock st' = clock st.
Proof.
  intros Hsearch Hdecode Htool.
  unfold Eve._extract_json. rewrite Hsearch.
  unfold Eve.json_loads. rewrite Hdecode.
  unfold bind at 1. cbv beta iota delta [ret].
  unfold bind at 1, print at 1, write at 1. cbv beta iota.
  unfold bind at 1.
  destruct (dispatch_of_odd_tool_names_helper w d request user_text
              (mkState (stdout st ++ [("Tool :- " ++ str_ (VDict request))
                                      ++ newline]) (clock st)) Htool)
    as (kind & ->).
  eexists. split; reflexivity.
Qed.

Lemma extraction_fails_without_data_witness :
  exists st',
    Eve._extract_json offline (eve_at offline 2) (VStr tool_twice)
      (VStr "news") initial
    = (Raise (Exc KeyError "'data'"), st')
    /\ clock st' = 0.
Proof.
  apply (extraction_fails_without_data offline 0 tool_twice tool_twice
           EmptyString [("tool", VList [VStr "get_news"])] (VStr "news")
           initial).
  - vm_compute. reflexivity.
  - vm_compute. reflexivity.
  - reflexivity.
Defined.



(** ** The pattern and the decoder *)

Lemma match_here_pattern_brace (s m : string) :
  re.match_here pattern s = Some m -> exists m', m = String "{" m'.
Proof.
  change pattern with (re.One (re.Lit "{"%char) :: tail pattern).
  cbn [re.match_here]. destruct s as [| c s']; [ done | ].
  cbn [re.atom_matches]. destruct (Ascii.eqb_spec c "{") as [-> | _];
    [ | done ].
  destruct (re.match_here (tail pattern) s') as [m' |]; [ | done ].
  intros [= <-]. by exists m'.
Qed.

Lemma search_pattern_brace (s m : string) :
  re.search pattern s = Some m -> exists m', m = String "{" m'.
Proof.
  induction s as [| c s IH]; cbn [re.search].
  - destruct (re.match_here pattern EmptyString) eqn:E; [ | done ].
    intros [= <-]. by apply match_here_pattern_brace in E.
  - destruct (re.match_here pattern (String c s)) eqn:E; [ | exact IH ].
    intros [= <-]. by apply match_here_pattern_brace in E.
Qed.

Lemma members_dict (fuel : nat) :
  forall acc s v r,
    json.members fuel acc s = json.Parsed v r -> exists d, v = VDict d.
Proof.
  induction fuel as [| fuel IH]; intros acc s v r; [ done | ].
  cbn [json.members].
  destruct s as [| c rest]; [ done | ].
  destruct c as [[] [] [] [] [] [] [] []]; try done.
  destruct (json.scanstring rest) as [[key r1] |]; [ | done ].
  destruct (json.skip_ws r1) as [| c2 r2]; [ done | ].
  destruct c2 as [[] [] [] [] [] [] [] []]; try done.
  destruct (json.scan_once fuel (json.skip_ws r2)) as [v' r3 | |];
    [ | done | done ].
  destruct (json.skip_ws r3) as [| c3 r4]; [ done | ].
  destruct c3 as [[] [] [] [] [] [] [] []]; try done.
  - intros [= <- _]. by eexists.
  - apply IH.
Qed.

Lemma scan_once_brace_dict (fuel : nat) (s : string) (v : value) (r : string) :
  json.scan_once fuel (String "{" s) = json.Parsed v r ->
  exists d, v = VDict d.
Proof.
  destruct fuel as [| fuel]; [ done | ]. cbn [json.scan_once].
  destruct (json.skip_ws s) as [| c rest]; [ done | ].
  destruct c as [[] [] [] [] [] [] [] []]; try done.
  - intros [= <- _]. by eexists.
  - apply members_dict.
Qed.

Lemma decode_brace_dict (s : string) (v : value) (r : string) :
  json.decode (String "{" s) = json.Parsed v r -> exists d, v = VDict d.
Proof.
  unfold json.decode.
  change (json.skip_ws (String "{" s)) with (String "{" s).
  destruct (json.scan_once _ _) as [v0 rest0 | |] eqn:E; [ | done | done ].
  destruct (json.skip_ws rest0); [ | done ]. intros [= <- _].
  by apply scan_once_brace_dict in E.
Qed.

(** What [_extract_json] decodes from the text is a JSON object: the
    pattern only matches text that starts with an opening brace, and such
    text decodes to a dict or not at all.  So the [.get] calls of
    [_call_module] never fail for lack of the method. *)
Theorem extracted_tool_call_is_dict
    (text group rest : string) (tool : value) :
  re.search pattern text = Some group ->
  json.decode group = json.Parsed tool rest ->
  exists d, tool = VDict d.
Proof.
  intros [m ->]%search_pattern_brace. apply decode_brace_dict.
Qed.

Lemma extracted_tool_call_is_dict_witness :
  exists d, delhi_request = VDict d.
Proof.
  apply (extracted_tool_call_is_dict sure_thing
           (dq "{'tool':'get_weather','input':'delhi'}") EmptyString).
  - vm_compute. reflexivity.
  - vm_compute. reflexivity.
Defined.

(** ** The listing of [News] *)

Lemma getitem_pure (v : value) (key : string) :
  exists o, forall st, getitem v key st = (o, st).
Proof.
  destruct v as [| b | n | x | s | l | d]; try (by eexists).
  cbn [getitem]. destruct (dict_lookup key d); by eexists.
Qed.

Lemma news_format_state (news : value) (st : State) :
  News._news_format news st = ((News._news_format news initial).1, st).
Proof.
  unfold News._news_format, bind.
  destruct (getitem_pure news "source") as [o1 H1]. rewrite !H1.
  destruct o1 as [source | e |]; [ | reflexivity | reflexivity ].
  destruct (getitem_pure source "name") as [o2 H2]. rewrite !H2.
  destruct o2 as [name | e |]; [ | reflexivity | reflexivity ].
  destruct (getitem_pure news "description") as [o3 H3]. rewrite !H3.
  destruct o3 as [description | e |]; [ | reflexivity | reflexivity ].
  destruct (getitem_pure news "url") as [o4 H4]. rewrite !H4.
  destruct o4 as [url | e |]; reflexivity.
Qed.

Section NewsListing.

Variable w : World.

Lemma news_format_call (news : value) (st : State) :
  exists v st',
    call_attr (ACallable (safe_run w
                 (method1 "_news_format" None News._news_format))) [news] st
    = (Ok v, st')
    /\ formatted_as news v
    /\ clock st' = clock st
    /\ (is_Some (article_text news) -> st' = st).
Proof.
  cbn [call_attr]. rewrite safe_run_call, call_method1, news_format_state.
  unfold formatted_as, article_text.
  pose proof (News_news_format_post news initial) as H.
  destruct (News._news_format news initial) as [[v | e |] st0]; cbn [fst].
  - destruct H as [s ->]. by eexists _, _.
  - rewrite H. eexists _, _. split; [ reflexivity | ].
    split; [ by eexists | ]. split; [ reflexivity | ]. by intros [? ?].
  - done.
Qed.

Lemma mapM_news_format (items : list value) (st : State) :
  exists vs st',
    mapM (fun x => call_attr (ACallable (safe_run w
                      (method1 "_news_format" None News._news_format))) [x])
      items st
    = (Ok vs, st')
    /\ Forall2 formatted_as items vs
    /\ clock st' = clock st
    /\ (Forall (fun a => is_Some (article_text a)) items -> st' = st).
Proof.
  revert st. induction items as [| a items IH]; intros st.
  - by eexists _, _.
  - cbn [mapM]. unfold bind at 1.
    destruct (news_format_call a st) as (v & st1 & -> & Hv & Hc & Hst).
    unfold bind at 1.
    destruct (IH st1) as (vs & st2 & -> & Hvs & Hc2 & Hst2).
    eexists _, _. split; [ reflexivity | ].
    split; [ by constructor | ]. split; [ congruence | ].
    intros [Ha Hitems]%Forall_cons. rewrite (Hst2 Hitems). by apply Hst.
Qed.

Lemma all_str_formatted (items : list value) (vs : list value) (i : nat) :
  Forall2 formatted_as items vs ->
  Forall (fun a => is_Some (article_text a)) items ->
  all_str i vs = inl (omap article_text items).
Proof.
  intros H. revert i.
  induction H as [| a v items vs Hv _ IH]; intros i Hall; [ done | ].
  apply Forall_cons in Hall as [[s Hs] Hall]. unfold formatted_as in Hv.
  rewrite Hs in Hv. subst v. cbn [all_str omap list_omap]. rewrite Hs.
  by rewrite (IH (S i) Hall).
Qed.

Lemma all_str_unformatted (items : list value) (vs : list value)
    (i k : nat) (a : value) :
  Forall2 formatted_as items vs ->
  items !! k = Some a ->
  article_text a = None ->
  (forall j b, j < k -> items !! j = Some b -> is_Some (article_text b)) ->
  exists d, all_str i vs = inr (i + k, VDict d).
Proof.
  intros H. revert i k.
  induction H as [| x v items vs Hv _ IH]; intros i k Hk Ha Hbefore;
    [ done | ].
  destruct k as [| k].
  - injection Hk as ->. unfold formatted_as in Hv. rewrite Ha in Hv.
    destruct Hv as [d ->]. exists d. cbn [all_str]. by rewrite Nat.add_0_r.
  - destruct (Hbefore 0 x) as [s Hs]; [ lia | done | ].
    unfold formatted_as in Hv. rewrite Hs in Hv. subst v.
    destruct (IH (S i) k) as [d Hd]; [ done | done | | ].
    { intros j b Hj Hb. apply (Hbefore (S j) b); [ lia | done ]. }
    exists d. cbn [all_str]. rewrite Hd. by rewrite Nat.add_succ_r.
Qed.

Lemma News_filter_articles (d : list (string * value))
    (articles : list value) (st : State) :
  dict_lookup "articles" d = Some (VList articles) ->
  exists vs st',
    News._filter_data (News.new w 1) (VDict d) st = str_join newline vs st'
    /\ Forall2 formatted_as (take 10 articles) vs
    /\ clock st' = clock st
    /\ (Forall (fun a => is_Some (article_text a)) (take 10 articles) ->
        st' = st).
Proof.
  intros Hd.
  destruct (News_new_S w 0) as (o & -> & _ & _ & _ & Hformat & _).
  unfold News._filter_data.
  unfold bind at 1. cbn [getitem]. rewrite Hd. cbv beta iota delta [ret].
  unfold bind at 1. rewrite (getattr_eq _ _ _ _ Hformat).
  unfold bind at 1. cbn [slice_to]. cbv beta iota delta [ret].
  unfold bind at 1. cbn [iterate]. cbv beta iota delta [ret].
  unfold bind at 1.
  destruct (mapM_news_format (take 10 articles) st)
    as (vs & st' & -> & Hvs & Hc & Hst).
  by eexists _, _.
Qed.

Lemma News_fetch_articles (topic : value) (r : Response)
    (d : list (string * value)) (st : State) :
  (forall url, requests_get w (clock st) url = Ok r) ->
  status_code r = 200%Z ->
  json r = Ok (VDict d) ->
  News._fetch_news w (News.new w 2) topic st
  = call (safe_run w (method1 "_filter_data" None
                        (News._filter_data (News.new w 1))))
      [VDict d] (asked st).
Proof.
  intros Hget Hcode Hjson. apply Z.eqb_eq in Hcode.
  destruct (News_fetch_request w topic st) as [url ->].
  destruct (News_new_S w 1) as (o & -> & _ & _ & Hfilter & _).
  unfold bind at 1, external. rewrite Hget. cbv beta iota. rewrite Hcode.
  unfold bind at 1. rewrite (getattr_eq _ _ _ _ Hfilter).
  unfold bind at 1, lift. by rewrite Hjson.
Qed.

End NewsListing.

(** When the request is answered with status 200 and each of the first ten
    articles has a source with a name, a description and a url, [main]
    returns their texts, joined by newlines, in an envelope with [success]
    true; articles after the tenth are not looked at, and nothing is
    logged. *)
Theorem news_success
    (w : World) (topic : value) (r : Response) (d : list (string * value))
    (articles : list value) (st : State) :
  (forall url, requests_get w (clock st) url = Ok r) ->
  status_code r = 200%Z ->
  json r = Ok (VDict d) ->
  dict_lookup "articles" d = Some (VList articles) ->
  Forall (fun a => is_Some (article_text a)) (take 10 articles) ->
  invoke (news_of w) "main" [topic] st
  = (Ok (VDict [("success", VBool true);
                ("data", VStr (join newline
                                 (omap article_text (take 10 articles))))]),
     asked st).
Proof.
  intros Hget Hcode Hjson Hd Hall.
  rewrite invoke_news_main, (News_fetch_articles w topic r d st Hget Hcode Hjson).
  rewrite safe_run_call, call_method1.
  destruct (News_filter_articles w d articles (asked st) Hd)
    as (vs & st' & -> & Hvs & _ & Hst).
  rewrite (Hst Hall). unfold str_join.
  by rewrite (all_str_formatted _ _ 0 Hvs Hall).
Qed.

Lemma news_success_witness :
  invoke (news_of (newsstand
            [article "BBC News" "Rain in Delhi" "https://bbc.com/1";
             article "NDTV" "Markets close higher" "https://ndtv.com/2"]))
    "main" [VStr "india"] initial
  = (Ok (VDict [("success", VBool true);
                ("data", VStr
                   (("*BBC News*" ++ newline ++ " Rain in Delhi" ++ newline
                     ++ "Link:- https://bbc.com/1" ++ newline)
                    ++ newline
                    ++ ("*NDTV*" ++ newline ++ " Markets close higher"
                        ++ newline ++ "Link:- https://ndtv.com/2"
                        ++ newline)))]),
     mkState [] 1).
Proof.
  apply (news_success
           (newsstand
              [article "BBC News" "Rain in Delhi" "https://bbc.com/1";
               article "NDTV" "Markets close higher" "https://ndtv.com/2"])
           (VStr "india")
           (mkResponse 200
              (Ok (VDict [("status", VStr "ok");
                          ("totalResults", VInt 2);
                          ("articles", VList
                             [article "BBC News" "Rain in Delhi"
                                "https://bbc.com/1";
                              article "NDTV" "Markets close higher"
                                "https://ndtv.com/2"])]))
              (Ok EmptyString))
           [("status", VStr "ok");
            ("totalResults", VInt 2);
            ("articles", VList
               [article "BBC News" "Rain in Delhi" "https://bbc.com/1";
                article "NDTV" "Markets close higher" "https://ndtv.com/2"])]
           [article "BBC News" "Rain in Delhi" "https://bbc.com/1";
            article "NDTV" "Markets close higher" "https://ndtv.com/2"]
           initial).
  - reflexivity.
  - reflexivity.
  - reflexivity.
  - reflexivity.
  - repeat constructor; by eexists.
Defined.

(** One article among the first ten that [_news_format] cannot format (say,
    one without a [url]) makes the whole listing fail: [main] returns an
    envelope with [success] false whose message is that of [str.join]
    about the position of the first such article, not the KeyError of
    [_news_format]. *)
Theorem news_one_bad_article
    (w : World) (topic : value) (r : Response) (d : list (string * value))
    (articles : list value) (k : nat) (a : value) (st : State) :
  (forall url, requests_get w (clock st) url = Ok r) ->
  status_code r = 200%Z ->
  json r = Ok (VDict d) ->
  dict_lookup "articles" d = Some (VList articles) ->
  take 10 articles !! k = Some a ->
  article_text a = None ->
  (forall j b, j < k -> take 10 articles !! j = Some b ->
               is_Some (article_text b)) ->
  exists st',
    invoke (news_of w) "main" [topic] st
    = (Ok (VDict [("success", VBool false);
                  ("data", VStr ("sequence item " ++ pretty k
                                 ++ ": expected str instance, dict found"))]),
       st')
    /\ clock st' = S (clock st).
Proof.
  intros Hget Hcode Hjson Hd Hk Ha Hbefore.
  rewrite invoke_news_main, (News_fetch_articles w topic r d st Hget Hcode Hjson).
  rewrite safe_run_call, call_method1.
  destruct (News_filter_articles w d articles (asked st) Hd)
    as (vs & st' & -> & Hvs & Hc & _).
  destruct (all_str_unformatted _ _ 0 k a Hvs Hk Ha Hbefore) as [bad Hbad].
  unfold str_join. rewrite Hbad. unfold raise. cbv beta iota.
  eexists. split; [ reflexivity | ]. cbn [logged clock]. by rewrite Hc.
Qed.

Lemma news_one_bad_article_witness :
  exists st',
    invoke (news_of (newsstand
              [article "BBC News" "Rain in Delhi" "https://bbc.com/1";
               article_without_url "NDTV" "Markets close higher"]))
      "main" [VStr "india"] initial
    = (Ok (VDict [("success", VBool false);
                  ("data", VStr
                     "sequence item 1: expected str instance, dict found")]),
       st')
    /\ clock st' = 1.
Proof.
  apply (news_one_bad_article
           (newsstand
              [article "BBC News" "Rain in Delhi" "https://bbc.com/1";
               article_without_url "NDTV" "Markets close higher"])
           (VStr "india")
           (mkResponse 200
              (Ok (VDict [("status", VStr "ok");
                          ("totalResults", VInt 2);
                          ("articles", VList
                             [article "BBC News" "Rain in Delhi"
                                "https://bbc.com/1";
                              article_without_url "NDTV"
                                "Markets close higher"])]))
              (Ok EmptyString))
           [("status", VStr "ok");
            ("totalResults", VInt 2);
            ("articles", VList
               [article "BBC News" "Rain in Delhi" "https://bbc.com/1";
                article_without_url "NDTV" "Markets close higher"])]
           [article "BBC News" "Rain in Delhi" "https://bbc.com/1";
            article_without_url "NDTV" "Markets close higher"]
           1 (article_without_url "NDTV" "Markets close higher") initial).
  - reflexivity.
  - reflexivity.
  - reflexivity.
  - reflexivity.
  - reflexivity.
  - reflexivity.
  - intros [| j] b Hj; [ intros [= <-]; by eexists | lia ].
Defined.

(** ** class GoogleSearch *)

Lemma invoke_google_main (w : World) (topic : value) (st : State) :
  invoke (google_of w) "main" [topic] st
  = match GoogleSearch._do_google_search w (GoogleSearch.new w 2) topic st with
    | (Ok data, st') => envelope data st'
    | (Raise e, st') =>
        if isinstance_Exception e
        then (Ok (output_json false (VStr (exc_str e))),
              logged (method1 "_do_google_search" None
                        (GoogleSearch._do_google_search w
                           (GoogleSearch.new w 2))) e st')
        else (Raise e, st')
    | (Undetermined, st') => (Undetermined, st')
    end.
Proof.
  rewrite (proj2 (proj2 (invoke_main w topic st))). unfold google_main.
  cbn [call_attr]. rewrite safe_run_call, call_method1, GoogleSearch_main_eq.
  unfold bind at 1. rewrite safe_run_call, call_method1.
  destruct (GoogleSearch._do_google_search w (GoogleSearch.new w 2) topic st)
    as [[data | e |] st']; [ | | done ].
  - by destruct (envelope_returns data st') as [v ->].
  - destruct (isinstance_Exception e) eqn:E; [ done | ].
    cbv beta iota. by rewrite E.
Qed.

Lemma bind_ext {A B} (c : M A) (k1 k2 : A -> M B) (st : State) :
  (forall a st', k1 a st' = k2 a st') -> bind c k1 st = bind c k2 st.
Proof.
  intros H. unfold bind. by destruct (c st) as [[a | e |] st'].
Qed.

Lemma GoogleSearch_search_request (w : World) (topic : value) (st : State) :
  exists url,
    GoogleSearch._do_google_search w (GoogleSearch.new w 2) topic st
    = (response <- external (fun t => requests_get w t url) ;;
       if (status_code response =? 200)%Z then
         link <- (x <- lift (json response) ;; x <- getitem x "items" ;;
                  x <- getitem_0 x ;; getitem x "formattedUrl") ;;
         call (safe_run w (method1 "_get_webpage" None
                 (GoogleSearch._get_webpage w (GoogleSearch.new w 1)))) [link]
       else
         text <- lift (content_decode response) ;;
         raise (Exc RuntimeError
                  ("Error in Google search with status code : "
                   ++ pretty (status_code response) ++ " Message : " ++ text)))
      st.
Proof.
  destruct (GoogleSearch_new_S w 1) as (o & -> & _ & _ & Hget & _ & Hkey & Hcx).
  unfold GoogleSearch._do_google_search.
  unfold bind at 1. rewrite (attr_value_eq _ _ _ _ Hkey).
  unfold bind at 1. rewrite (attr_value_eq _ _ _ _ Hcx).
  eexists. apply bind_ext. intros response st1.
  destruct (status_code response =? 200)%Z; [ | done ].
  unfold bind at 1. by rewrite (getattr_eq _ _ _ _ Hget).
Qed.

Lemma GoogleSearch_page_request (w : World) (link : value) (st : State) :
  GoogleSearch._get_webpage w (GoogleSearch.new w 1) link st
  = (response <- external (fun t => requests_get w t link) ;;
     text <- lift (content_decode response) ;;
     call (safe_run w (method1 "_scrape_webpage" None
             (GoogleSearch._scrape_webpage w))) [VStr text]) st.
Proof.
  destruct (GoogleSearch_new_S w 0) as (o & -> & _ & _ & _ & Hscrape & _).
  unfold GoogleSearch._get_webpage. apply bind_ext. intros response st1.
  unfold bind at 1. by rewrite (getattr_eq _ _ _ _ Hscrape).
Qed.

Lemma google_page
    (w : World) (topic link : value) (r1 r2 : Response)
    (d item : list (string * value)) (rest : list value) (text : string)
    (st : State) :
  (forall url, requests_get w (clock st) url = Ok r1) ->
  status_code r1 = 200%Z ->
  json r1 = Ok (VDict d) ->
  dict_lookup "items" d = Some (VList (VDict item :: rest)) ->
  dict_lookup "formattedUrl" item = Some link ->
  requests_get w (S (clock st)) link = Ok r2 ->
  content_decode r2 = Ok text ->
  GoogleSearch._do_google_search w (GoogleSearch.new w 2) topic st
  = call (safe_run w (method1 "_get_webpage" None
            (GoogleSearch._get_webpage w (GoogleSearch.new w 1)))) [link]
      (asked st)
  /\ GoogleSearch._get_webpage w (GoogleSearch.new w 1) link (asked st)
     = call (safe_run w (method1 "_scrape_webpage" None
               (GoogleSearch._scrape_webpage w))) [VStr text]
         (asked (asked st)).
Proof.
  intros Hget Hcode Hjson Hitems Hurl Hpage Htext. apply Z.eqb_eq in Hcode.
  split.
  - destruct (GoogleSearch_search_request w topic st) as [url ->].
    unfold bind at 1, external. rewrite Hget. cbv beta iota. rewrite Hcode.
    unfold bind at 1 2, lift. rewrite Hjson.
    unfold bind at 1. cbn [getitem]. rewrite Hitems.
    cbv beta iota delta [ret]. unfold bind at 1. cbn [getitem_0].
    cbv beta iota delta [ret]. cbn [getitem]. rewrite Hurl. reflexivity.
  - rewrite GoogleSearch_page_request.
    unfold bind at 1, external. cbn [asked clock]. rewrite Hpage.
    cbv beta iota. unfold bind at 1, lift. by rewrite Htext.
Qed.



(** When the page has no element with the id [mw-content-text],
    [_scrape_webpage] fails on [None]: [main] returns an envelope with
    [success] false and the message of the AttributeError, which the wrapper
    of [_scrape_webpage] has logged. *)
Theorem google_page_without_content
    (w : World) (topic link : value) (r1 r2 : Response)
    (d item : list (string * value)) (rest : list value) (text : string)
    (st : State) :
  (forall url, requests_get w (clock st) url = Ok r1) ->
  status_code r1 = 200%Z ->
  json r1 = Ok (VDict d) ->
  dict_lookup "items" d = Some (VList (VDict item :: rest)) ->
  dict_lookup "formattedUrl" item = Some link ->
  requests_get w (S (clock st)) link = Ok r2 ->
  content_decode r2 = Ok text ->
  soup_content_paragraphs w (VStr text) = Ok None ->
  invoke (google_of w) "main" [topic] st
  = (Ok (VDict [("success", VBool false);
                ("data",
                 VStr "'NoneType' object has no attribute 'find_all'")]),
     mkState (stdout st
              ++ ["Error in _scrape_webpage: 'NoneType' object has no attribute 'find_all'"
                  ++ newline])
             (S (S (clock st)))).
Proof.
  intros Hget Hcode Hjson Hitems Hurl Hpage Htext Hsoup.
  destruct (google_page w topic link r1 r2 d item rest text st)
    as [Hsearch Hweb]; try assumption.
  rewrite invoke_google_main, Hsearch, safe_run_call, call_method1, Hweb.
  rewrite safe_run_call, call_method1.
  unfold GoogleSearch._scrape_webpage, bind, lift. rewrite Hsoup.
  reflexivity.
Qed.

Lemma google_page_without_content_witness :
  invoke (google_of (encyclopedia one_result 200 None))
    "main" [VStr "elon musk"] initial
  = (Ok (VDict [("success", VBool false);
                ("data",
                 VStr "'NoneType' object has no attribute 'find_all'")]),
     mkState ["Error in _scrape_webpage: 'NoneType' object has no attribute 'find_all'"
              ++ newline] 2).
Proof.
  apply (google_page_without_content
           (encyclopedia one_result 200 None)
           (VStr "elon musk")
           (VStr "https://en.wikipedia.org/wiki/Elon_Musk")
           (mkResponse 200 (Ok one_result) (Ok EmptyString))
           (mkResponse 200
              (Raise (Exc (ExceptionSubclass "JSONDecodeError")
                        "Expecting value: line 1 column 1 (char 0)"))
              (Ok "<html></html>"))
           [("kind", VStr "customsearch#search");
            ("items", VList
               [VDict [("title", VStr "Elon Musk - Wikipedia");
                       ("formattedUrl",
                        VStr "https://en.wikipedia.org/wiki/Elon_Musk")]])]
           [("title", VStr "Elon Musk - Wikipedia");
            ("formattedUrl", VStr "https://en.wikipedia.org/wiki/Elon_Musk")]
           [] "<html></html>" initial); reflexivity.
Defined.

(** A search that is answered with status 200 and no [items] (the API
    leaves the key out when nothing was found) is reported as a failure
    whose message is the name of the missing key; no page is requested. *)
Theorem google_no_results
    (w : World) (topic : value) (r : Response) (d : list (string * value))
    (st : State) :
  (forall url, requests_get w (clock st) url = Ok r) ->
  status_code r = 200%Z ->
  json r = Ok (VDict d) ->
  dict_lookup "items" d = None ->
  invoke (google_of w) "main" [topic] st
  = (Ok (VDict [("success", VBool false); ("data", VStr "'items'")]),
     mkState (stdout st ++ ["Error in _do_google_search: 'items'" ++ newline])
             (S (clock st))).
Proof.
  intros Hget Hcode Hjson Hitems. apply Z.eqb_eq in Hcode.
  rewrite invoke_google_main.
  destruct (GoogleSearch_search_request w topic st) as [url ->].
  unfold bind at 1, external. rewrite Hget. cbv beta iota. rewrite Hcode.
  unfold bind at 1 2, lift. rewrite Hjson.
  unfold bind at 1. cbn [getitem]. rewrite Hitems. reflexivity.
Qed.

Lemma google_no_results_witness :
  invoke (google_of (encyclopedia no_result 200 None))
    "main" [VStr "qwertyuiop asdfgh"] initial
  = (Ok (VDict [("success", VBool false); ("data", VStr "'items'")]),
     mkState ["Error in _do_google_search: 'items'" ++ newline] 1).
Proof.
  apply (google_no_results (encyclopedia no_result 200 None)
           (VStr "qwertyuiop asdfgh")
           (mkResponse 200 (Ok no_result) (Ok EmptyString))
           [("kind", VStr "customsearch#search");
            ("searchInformation", VDict [("totalResults", VStr "0")])]
           initial); reflexivity.
Defined.

(** ** Replies without a tool call *)

Lemma occurs_prefix (sub s : string) :
  String.prefix sub s = true -> occurs sub s = true.
Proof. intros H. destruct s; cbn [occurs]; by rewrite H. Qed.

Lemma occurs_String (sub : string) (c : ascii) (s : string) :
  occurs sub s = true -> occurs sub (String c s) = true.
Proof. intros H. cbn [occurs]. rewrite H. apply orb_true_r. Qed.

Lemma match_here_lazy_dot (p : list re.item) (key s m : string) :
  (forall s' m', re.match_here p s' = Some m' -> occurs key s' = true) ->
  re.match_here (re.StarLazy re.Dot :: p) s = Some m ->
  occurs key s = true.
Proof.
  intros Hp. revert m. induction s as [| c s IH]; intros m.
  - cbn [re.match_here].
    destruct (re.match_here p EmptyString) as [m' |] eqn:E; [ | done ].
    intros _. by apply (Hp _ m').
  - cbn [re.match_here].
    destruct (re.match_here p (String c s)) as [m' |] eqn:E.
    { intros _. by apply (Hp _ m'). }
    destruct (re.atom_matches re.Dot c); [ | done ].
    change ((fix lazy (s0 : string) : option string :=
               match re.match_here p s0 with
               | Some m0 => Some m0
               | None =>
                   match s0 with
                   | EmptyString => None
                   | String c0 s'0 =>
                       if re.atom_matches re.Dot c0
                       then String c0 <$> lazy s'0
                       else None
                   end
               end) s)
      with (re.match_here (re.StarLazy re.Dot :: p) s).
    destruct (re.match_here (re.StarLazy re.Dot :: p) s) as [m1 |] eqn:E1;
      [ | done ].
    intros _. apply occurs_String. by apply (IH m1).
Qed.

Lemma match_here_key (s m : string) :
  re.match_here (tail (tail pattern)) s = Some m ->
  String.prefix (dq "'tool'") s = true.
Proof.
  change (tail (tail pattern))
    with (re.lits (dq "'tool'") ++ tail (tail (tail (tail (tail (tail
            (tail (tail pattern))))))))%list.
  generalize (tail (tail (tail (tail (tail (tail (tail (tail pattern)))))))).
  intros p. cbn [re.lits dq list_ascii_of_string fmap list_fmap app].
  cbn [re.match_here re.atom_matches].
  repeat (destruct s as [| ? s]; [ done | ];
          match goal with
          | |- context [Ascii.eqb ?a ?b] =>
              destruct (Ascii.eqb_spec a b) as [-> | ?]; [ | done ]
          end).
  intros _. cbn. by destruct s.
Qed.

Lemma search_pattern_key (text m : string) :
  re.search pattern text = Some m -> occurs (dq "'tool'") text = true.
Proof.
  assert (Hhere : forall s m', re.match_here pattern s = Some m' ->
                               occurs (dq "'tool'") s = true).
  { intros s m'.
    change pattern with (re.One (re.Lit "{"%char) :: re.StarLazy re.Dot
                           :: tail (tail pattern)).
    destruct s as [| c s]; [ done | ].
    set (q := re.StarLazy re.Dot :: tail (tail pattern)).
    cbn [re.match_here]. destruct (re.atom_matches _ c); [ | done ].
    destruct (re.match_here q s) as [m1 |] eqn:E; [ | done ].
    intros _. apply occurs_String.
    apply (match_here_lazy_dot (tail (tail pattern)) _ s m1); [ | exact E ].
    intros s' m2 H. apply occurs_prefix. by apply (match_here_key s' m2). }
  revert m. induction text as [| c text IH]; intros m; cbn [re.search].
  - destruct (re.match_here pattern EmptyString) as [m' |] eqn:E; [ | done ].
    intros _. by apply (Hhere _ m').
  - destruct (re.match_here pattern (String c text)) as [m' |] eqn:E.
    + intros _. by apply (Hhere _ m').
    + intros H. apply occurs_String. by apply (IH m).
Qed.

(** A reply of the model in which the key [tool] in double quotes does not
    occur is shown to the user as it is: no tool is called and the model is
    not asked again. *)
Theorem reply_without_tool_key_is_shown
    (w : World) (self : instance) (text : string) (user_text : value)
    (st : State) :
  occurs (dq "'tool'") text = false ->
  Eve._extract_json w self (VStr text) user_text st
  = (Ok VNone,
     mkState (stdout st ++ [("Medusa :- " ++ text) ++ newline]) (clock st)).
Proof.
  intros Hkey. unfold Eve._extract_json.
  destruct (re.search pattern text) as [m |] eqn:E; [ | reflexivity ].
  apply search_pattern_key in E. congruence.
Qed.

Lemma reply_without_tool_key_is_shown_witness :
  Eve._extract_json offline (eve_of offline) (VStr capital_tool)
    (VStr "weather in delhi") initial
  = (Ok VNone,
     mkState [("Medusa :- " ++ capital_tool) ++ newline] 0).
Proof.
  apply (reply_without_tool_key_is_shown offline (eve_of offline)
           capital_tool (VStr "weather in delhi") initial).
  vm_compute. reflexivity.
Defined.

(** ** The loop of [run] and the end of the input *)

(** What the user types after [break] is never read: [run] does the same
    whatever follows the first [break]. *)
Theorem input_after_break_is_not_read
    (w : World) (k : nat) (before after after' : list string) (st : State) :
  Eve.run_loop w (eve_at w (S k)) (before ++ "break" :: after) st
  = Eve.run_loop w (eve_at w (S k)) (before ++ "break" :: after') st.
Proof.
  revert st. induction before as [| user_input before IH]; intros st.
  - cbn [app]. by rewrite !run_loop_break.
  - cbn [app]. destruct (decide (user_input = "break")) as [-> | Hbreak].
    { by rewrite !run_loop_break. }
    rewrite !run_loop_turn by done. cbv zeta.
    destruct (ollama_chat w (clock (prompted st)) (getenv w "MODEL")
                (routing_messages w user_input)) as [tokens [e |]];
      cbn [fst snd]; [ reflexivity | ].
    destruct (call (safe_run w (extract_json_method w (eve_at w k))) _ _)
      as [[v | e |] st']; [ apply IH | reflexivity | reflexivity ].
Qed.

(** ** The statements of the module *)

Section Program.

Variable w : World.
Hypothesis Hw : tame_world w.









End Program.


